(** * stdnum-js: the Belgian National Number validator and the country registry

    A shallow embedding of [src/be/nn.ts] (module [NN]) and of the registry
    functions [validatePerson] / [validateEntity] of the package index
    (module [Registry]), followed by the properties proved about them.

    Conventions of the embedding:
    - a JavaScript [number] is an [option Z]: [None] is [NaN]; every number
      the validator computes is an integer far below 2^53, so [Z] is exact;
    - a JavaScript [Date] is its time value, an [option Z] of milliseconds
      since the epoch, [None] being the invalid date;
    - the system clock is an explicit stream of readings, threaded through
      the functions that call [Date.now()] by a small state monad;
    - a thrown exception is the [Throw] outcome. *)

From Stdlib Require Import ZArith String Ascii List Bool Lia Permutation.
From stdpp Require Import gmap strings list.
Import ListNotations.

Local Open Scope string_scope.
Local Open Scope Z_scope.

(** ** JavaScript built-ins used by the sources *)

Module JS.

(** A JavaScript number: [None] is [NaN]. *)
Definition number : Type := option Z.

Definition isdigit (c : ascii) : bool :=
  ((48 <=? N_of_ascii c)%N && (N_of_ascii c <=? 57)%N)%bool.

Definition digit_val (c : ascii) : Z := Z.of_N (N_of_ascii c) - 48.

Definition digit_char (d : Z) : ascii := ascii_of_N (Z.to_N (48 + d)).

(** Value of the longest prefix of decimal digits of [s], continuing the
    accumulator [acc]. *)
Fixpoint parse_digits (s : string) (acc : Z) : Z :=
  match s with
  | String c r => if isdigit c then parse_digits r (10 * acc + digit_val c) else acc
  | EmptyString => acc
  end.

(** [parseInt(s, 10)]: the longest leading run of decimal digits, [NaN]
    when [s] does not start with a digit.  Leading white space and a sign
    are not modelled: the validator only parses strings of digits.  Above
    2^53 JavaScript rounds the value; the validator parses a string of
    more than eleven digits only to compare it with 0, which rounding
    does not change. *)
Definition parseInt (s : string) : number :=
  match s with
  | String c _ => if isdigit c then Some (parse_digits s 0) else None
  | EmptyString => None
  end.

(** Decimal digits of a non-negative integer, most significant first,
    put in front of [acc]. *)
Fixpoint to_digits (fuel : nat) (n : Z) (acc : string) : string :=
  let acc' := String (digit_char (n mod 10)) acc in
  match fuel with
  | O => acc'
  | S f => if n <? 10 then acc' else to_digits f (n / 10) acc'
  end.

(** Template-literal conversion of a number, [`${n}`], for [NaN] and for
    the integers below 10^21, which JavaScript writes in plain decimal. *)
Definition Number_toString (n : number) : string :=
  match n with
  | None => "NaN"
  | Some z =>
      if z <? 0
      then String "-" (to_digits (Z.to_nat (Z.log2 (- z))) (- z) "")
      else to_digits (Z.to_nat (Z.log2 z)) z ""
  end.

(** [a < b], [a <= b] on numbers: false as soon as one side is [NaN]. *)
Definition lt (a b : number) : bool :=
  match a, b with Some x, Some y => x <? y | _, _ => false end.

Definition le (a b : number) : bool :=
  match a, b with Some x, Some y => x <=? y | _, _ => false end.

(** [a % m + c === r]; [%] is the remainder that takes the sign of the
    dividend. *)
Definition rem_plus_eq (a : number) (m : Z) (c : number) (r : Z) : bool :=
  match a, c with Some x, Some y => Z.rem x m + y =? r | _, _ => false end.

(** *** Dates *)

Definition msPerDay : Z := 86400000.

Definition isLeapYear (y : Z) : bool :=
  ((y mod 4 =? 0) && (negb (y mod 100 =? 0) || (y mod 400 =? 0)))%bool.

Definition daysInMonth (y m : Z) : Z :=
  match m with
  | 1 | 3 | 5 | 7 | 8 | 10 | 12 => 31
  | 4 | 6 | 9 | 11 => 30
  | 2 => if isLeapYear y then 29 else 28
  | _ => 0
  end.

(** Day number of January 1st of year [y] (ECMAScript [DayFromYear]). *)
Definition DayFromYear (y : Z) : Z :=
  365 * (y - 1970) + (y - 1969) / 4 - (y - 1901) / 100 + (y - 1601) / 400.

Fixpoint daysBeforeMonth (y : Z) (months : nat) : Z :=
  match months with
  | O => 0
  | S k => daysBeforeMonth y k + daysInMonth y (Z.of_nat (S k))
  end.

(** Real calendar date: month 1..12 and day 1..length of the month. *)
Definition isCalendarDate (y m d : Z) : bool :=
  ((1 <=? m) && (m <=? 12) && (1 <=? d) && (d <=? daysInMonth y m))%bool.

(** Time value of midnight UTC of the calendar date [y]-[m]-[d]. *)
Definition utcMidnight (y m d : Z) : Z :=
  (DayFromYear y + daysBeforeMonth y (Z.to_nat (m - 1)) + (d - 1)) * msPerDay.

Definition all_digits (s : string) : bool :=
  forallb isdigit (list_ascii_of_string s).

(** [new Date(s)] for the two ISO shapes the validator builds: ["YYYY"]
    and ["YYYY-MM-DD"], both read as UTC.  Any other string, and a day
    beyond the end of its month, is taken as the invalid date; the
    validator only parses dates that passed the calendar check. *)
Definition Date_parse (s : string) : option Z :=
  let y := parse_digits (substring 0 4 s) 0 in
  if ((String.length s =? 4)%nat && all_digits s)%bool then
    Some (utcMidnight y 1 1)
  else if ((String.length s =? 10)%nat
           && all_digits (substring 0 4 s)
           && String.eqb (substring 4 1 s) "-"
           && all_digits (substring 5 2 s)
           && String.eqb (substring 7 1 s) "-"
           && all_digits (substring 8 2 s))%bool then
    let m := parse_digits (substring 5 2 s) 0 in
    let d := parse_digits (substring 8 2 s) 0 in
    if isCalendarDate y m d then Some (utcMidnight y m d) else None
  else None.

(** [new Date(v)] for a numeric [v]: [TimeClip]. *)
Definition TimeClip (v : Z) : option Z :=
  if Z.abs v <=? 8640000000000000 then Some v else None.

(** [a <= b] on two [Date] objects compares their time values. *)
Definition Date_le (a b : option Z) : bool := le a b.

(** [Array.prototype[i]] on an array of strings; the arrays indexed
    below always have the element. *)
Definition item (l : list string) (i : nat) : string := nth i l "".

End JS.

(** ** The clock *)

(** The successive results of [Date.now()]: reading [k] of the stream is
    what the [k]-th call returns. *)
Definition Clock : Type := nat -> Z.

(** Computations that may read the clock. *)
Definition Clocked (A : Type) : Type := Clock -> A * Clock.

Definition ret {A} (a : A) : Clocked A := fun clk => (a, clk).

Definition bind {A B} (m : Clocked A) (k : A -> Clocked B) : Clocked B :=
  fun clk => let '(a, clk') := m clk in k a clk'.

Notation "x <-- m ;; k" := (bind m (fun x => k))
  (at level 100, m at next level, right associativity).

(** [Date.now()]. *)
Definition Date_now : Clocked Z := fun clk => (clk 0%nat, fun k => clk (S k)).

(** [array.filter(p)] when the callback [p] reads the clock. *)
Fixpoint filterM {A} (p : A -> Clocked bool) (l : list A) : Clocked (list A) :=
  match l with
  | [] => ret []
  | x :: r =>
      keep <-- p x ;;
      r' <-- filterM p r ;;
      ret (if keep then x :: r' else r')
  end.

(** Result of a computation on a given clock. *)
Definition run {A} (m : Clocked A) (clk : Clock) : A := fst (m clk).

(** The clock that shows the same instant at every reading. *)
Definition frozen (now : Z) : Clock := fun _ => now.

(** ** Shared types: [exceptions], [types] *)

Inductive Error : Type := InvalidFormat | InvalidLength | InvalidChecksum.

(** [ValidateReturn]: a success carries the compact form and the two
    classification flags, a failure carries the error. *)
Inductive ValidateReturn : Type :=
| Valid (compact : string) (isIndividual isCompany : bool)
| Invalid (error : Error).

Definition isValid (r : ValidateReturn) : bool :=
  match r with Valid _ _ _ => true | Invalid _ => false end.

(** Outcome of a call that may throw. *)
Inductive Outcome (A : Type) : Type :=
| Return (a : A)
| Throw (e : Error).
Arguments Return {A} a.
Arguments Throw {A} e.

(** ** [util]: the helpers of the package that [nn.ts] imports *)

Module strings.

(** Modelled from the spec: [strings.isdigits] belongs to the [util]
    module, whose source is missing; it is the character-class check of
    the pipeline, "all digits": a non-empty string of ASCII digits. *)
Definition isdigits (s : string) : bool :=
  (negb (String.eqb s "") && JS.all_digits s)%bool.

(** Modelled from the spec: [strings.splitAt] belongs to the [util]
    module, whose source is missing; it cuts the string at the given
    indices and returns the pieces in order, as its call sites require
    ([firstSix] is piece 0 of a cut at 6; [yy], [mm], [dd] are the three
    pieces of a cut at 2 and 4 of [firstSix]; the base number and the
    checksum are the two pieces of a cut at 9). *)
Fixpoint splitAt_from (value : string) (start : nat) (points : list nat) : list string :=
  match points with
  | [] => [substring start (String.length value - start) value]
  | p :: ps => substring start (p - start) value :: splitAt_from value p ps
  end.

Definition splitAt (value : string) (points : list nat) : list string :=
  splitAt_from value 0 points.

(** Modelled from the spec: [strings.cleanUnicode] belongs to the [util]
    module, whose source is missing.  The spec says of the compact form
    that it is the identifier "with all formatting characters (spaces,
    dots, dashes) removed", and of the pipeline that it is "compact, then
    check character class (all digits ...)": cleaning removes the
    characters of [deletechars] and lets every other character through to
    the test that [validate] makes on the cleaned value; a string is
    cleaned without error.  The validator itself is embedded for an
    arbitrary cleaning helper; this one serves in the examples. *)
Definition cleanUnicode_spec (value deletechars : string) : string * option Error :=
  let kept :=
    List.filter (fun c => negb (existsb (Ascii.eqb c) (list_ascii_of_string deletechars)))
                (list_ascii_of_string value) in
  (string_of_list_ascii kept, None).

End strings.

(** Modelled from the spec: [isValidDateCompactYYYYMMDD] belongs to the
    [util] module, whose source is missing; the spec asks that the
    completed date "forms a real calendar date (respecting month lengths
    and leap years)".  The argument is cut into a year of four digits, a
    month and a day. *)
Definition isValidDateCompactYYYYMMDD (yyyymmdd : string) : bool :=
  match strings.splitAt yyyymmdd [4; 6]%nat with
  | [yy; mm; dd] =>
      match JS.parseInt yy, JS.parseInt mm, JS.parseInt dd with
      | Some y, Some m, Some d => JS.isCalendarDate y m d
      | _, _, _ => false
      end
  | _ => false
  end.

(** ** [src/be/nn.ts] *)

Module NN.
Section Validator.

(** [strings.cleanUnicode], the cleaning helper of the package: it returns
    the cleaned value and an error or [null]. *)
Variable cleanUnicode : string -> string -> string * option Error.

Definition clean (input : string) : string * option Error :=
  cleanUnicode input " -.".

Definition compact (input : string) : Outcome string :=
  let '(value, err) := clean input in
  match err with
  | Some e => Throw e
  | None => Return value
  end.

Definition format (input : string) : string :=
  let '(value, _) := clean input in value.

Definition toDateArray (number : string) : list string :=
  strings.splitAt number [2; 4]%nat.

Definition getFirstSix (number : string) : string :=
  JS.item (strings.splitAt number [6%nat]) 0.

Definition getBaseNumberAndChecksum (number : string) : list JS.number :=
  map JS.parseInt (strings.splitAt number [9%nat]).

Definition toChecksumBasis (year baseNumber : JS.number) : JS.number :=
  let twoPrefixedBaseNumber :=
    JS.parseInt ("2" +:+ JS.Number_toString baseNumber) in
  if JS.lt year (Some 2000) then baseNumber else twoPrefixedBaseNumber.

Definition getApproximatelyNow : Clocked (option Z) :=
  let ONE_DAY := 1000 * 60 * 60 * 24 in
  now <-- Date_now ;;
  ret (JS.TimeClip (now + ONE_DAY)).

Definition yearHasStarted (year : JS.number) : Clocked bool :=
  let startOfYear := JS.Date_parse (JS.Number_toString year) in
  approximatelyNow <-- getApproximatelyNow ;;
  ret (JS.Date_le startOfYear approximatelyNow).

Definition isCompletelyUnknownDob (dob : string) : bool :=
  String.eqb dob "000001".

Definition isDobWithOnlyYearKnown (dob : string) : bool :=
  let d := toDateArray dob in
  let yy := JS.item d 0 in
  let mm := JS.item d 1 in
  let dd := JS.item d 2 in
  (strings.isdigits yy && String.eqb mm "00" && String.eqb dd "00")%bool.

Definition getValidPastDates (yymmdd : string) : Clocked (list string) :=
  let d := toDateArray yymmdd in
  let yy := JS.item d 0 in
  let mm := JS.item d 1 in
  let dd := JS.item d 2 in
  approximatelyNow <-- getApproximatelyNow ;;
  ret (List.filter (fun date => JS.Date_le (JS.Date_parse date) approximatelyNow)
         (map (fun yyyy => yyyy +:+ "-" +:+ mm +:+ "-" +:+ dd)
            (List.filter (fun yyyy => isValidDateCompactYYYYMMDD (yyyy +:+ mm +:+ dd))
               (map (fun c => c +:+ yy) ["19"; "20"])))).

Definition isValidDob (dob : string) : Clocked bool :=
  dates <-- getValidPastDates dob ;;
  ret (negb (length dates =? 0)%nat).

Definition isValidFirstSix (firstSix : string) : Clocked bool :=
  if (isCompletelyUnknownDob firstSix || isDobWithOnlyYearKnown firstSix)%bool
  then ret true
  else isValidDob firstSix.

Definition validStructure (number : string) : Clocked bool :=
  let firstSix := getFirstSix number in
  isValidFirstSix firstSix.

(** [date.split('-')[0]]: the text before the first dash. *)
Fixpoint beforeDash (s : string) : string :=
  match s with
  | String c r => if Ascii.eqb c "-" then "" else String c (beforeDash r)
  | EmptyString => ""
  end.

Definition getChecksumBasesForStandardDate (firstSix : string) (baseNumber : JS.number)
  : Clocked (list JS.number) :=
  validPastDates <-- getValidPastDates firstSix ;;
  let extractYearFromDate := fun date => JS.parseInt (beforeDash date) in
  let validPastYears := map extractYearFromDate validPastDates in
  ret (map (fun year => toChecksumBasis year baseNumber) validPastYears).

Definition getBaseNumbersForOnlyYearKnown (firstSix : string) (baseNumber : JS.number)
  : Clocked (list JS.number) :=
  let yy := JS.item (toDateArray firstSix) 0 in
  let toYear := fun prefix => JS.parseInt (prefix +:+ yy) in
  started <-- filterM yearHasStarted (map toYear ["19"; "20"]) ;;
  ret (map (fun year => toChecksumBasis year baseNumber) started).

Definition getChecksumBases (number : string) : Clocked (list JS.number) :=
  let firstSix := getFirstSix number in
  let baseNumber := nth 0 (getBaseNumberAndChecksum number) None in
  if isCompletelyUnknownDob firstSix then ret [baseNumber]
  else if isDobWithOnlyYearKnown firstSix
       then getBaseNumbersForOnlyYearKnown firstSix baseNumber
       else getChecksumBasesForStandardDate firstSix baseNumber.

Definition validChecksum (number : string) : Clocked bool :=
  checksumBases <-- getChecksumBases number ;;
  let checksum := nth 1 (getBaseNumberAndChecksum number) None in
  ret (existsb (fun csb => JS.rem_plus_eq csb 97 checksum 97) checksumBases).

Definition validate (input : string) : Clocked (Outcome ValidateReturn) :=
  match compact input with
  | Throw e => ret (Throw e)
  | Return number =>
      if (negb (strings.isdigits number) || JS.le (JS.parseInt number) (Some 0))%bool
      then ret (Return (Invalid InvalidFormat))
      else if negb (String.length number =? 11)%nat
      then ret (Return (Invalid InvalidLength))
      else
        structure <-- validStructure number ;;
        if negb structure then ret (Return (Invalid InvalidFormat))
        else
          checksum <-- validChecksum number ;;
          if negb checksum then ret (Return (Invalid InvalidChecksum))
          else ret (Return (Valid number true false))
  end.

End Validator.
End NN.

(** ** The package index: the registry of validators per country *)

Module Registry.

(** The [Validator] interface, at the type the package declares for it:
    [validate(input: string): ValidateReturn]. *)
Record Validator : Type := { validate : string -> ValidateReturn }.

(** [grp.validate(value).isValid] *)
Definition accepts (value : string) (grp : Validator) : bool :=
  isValid (validate grp value).

(** [{ isValid?: boolean; checked: boolean }] *)
Record Verdict : Type := { isValid : option bool; checked : bool }.

Section Index.

(** [country.toLocaleUpperCase()], which depends on the host locale. *)
Variable toLocaleUpperCase : string -> string.

(** The validators of the country modules: [lib "AZ" "tin"] is [AZ.tin]. *)
Variable lib : string -> string -> Validator.

(** The tables are object literals; the map holds their own properties.
    The inherited ones ([constructor], [toString], ...) all have a
    lower-case letter in their name and are out of reach of an
    upper-cased key. *)
Definition personValidators : gmap string (list Validator) :=
  list_to_map
    [ ("AZ", [lib "AZ" "tin"; lib "AZ" "pin"]);
      ("BA", [lib "BA" "jmbg"]);
      ("BG", [lib "BG" "vat"]);
      ("BY", [lib "BY" "unp"]);
      ("CN", [lib "CN" "ric"]);
      ("CH", [lib "CH" "ssn"]);
      ("CU", [lib "CU" "ni"]);
      ("CZ", [lib "CZ" "rc"]);
      ("DE", [lib "DE" "idnr"]);
      ("EE", [lib "EE" "ik"]);
      ("ES", [lib "ES" "dni"; lib "ES" "nie"]);
      ("FI", [lib "FI" "hetu"]);
      ("FR", [lib "FR" "nir"; lib "FR" "nif"]);
      ("GB", [lib "GB" "utr"]);
      ("GR", [lib "GR" "amka"]);
      ("HK", [lib "HK" "hkid"]);
      ("HR", [lib "HR" "oib"]);
      ("ID", [lib "ID" "npwp"]);
      ("IE", [lib "IE" "pps"]);
      ("IL", [lib "IL" "idnr"]);
      ("IN", [lib "IN" "pan"]);
      ("IS", [lib "IS" "kennitala"]);
      ("IT", [lib "IT" "codicefiscale"]);
      ("LI", [lib "LI" "peid"]);
      ("LT", [lib "LT" "asmens"]);
      ("LV", [lib "LV" "pvn"]);
      ("MU", [lib "MU" "nid"]);
      ("KR", [lib "KR" "rrn"]);
      ("MX", [lib "MX" "curp"]);
      ("MY", [lib "MY" "nric"]);
      ("NL", [lib "NL" "onderwijsnummer"; lib "NL" "bsn"]);
      ("NZ", [lib "NZ" "ird"]);
      ("PE", [lib "PE" "cui"; lib "PE" "ce"]);
      ("TH", [lib "TH" "idnr"]);
      ("US", [lib "US" "ssn"]);
      ("UY", [lib "UY" "nie"; lib "UY" "cedula"]);
      ("ZA", [lib "ZA" "tin"; lib "ZA" "idnr"]) ].

Definition entityValidators : gmap string (list Validator) :=
  list_to_map
    [ ("AU", [lib "AU" "abn"; lib "AU" "acn"; lib "AU" "tfn"]);
      ("BE", [lib "BE" "vat"]);
      ("BG", [lib "BG" "vat"]);
      ("BY", [lib "BY" "unp"]);
      ("CN", [lib "CN" "uscc"]);
      ("CH", [lib "CH" "uid"; lib "CH" "vat"]);
      ("CY", [lib "CH" "vat"]);
      ("CZ", [lib "CZ" "dic"]);
      ("DE", [lib "DE" "vat"; lib "DE" "stnr"]);
      ("DK", [lib "DK" "cvr"]);
      ("EE", [lib "EE" "kmkr"; lib "EE" "registrikood"]);
      ("ES", [lib "ES" "cif"; lib "ES" "nif"]);
      ("FI", [lib "FI" "alv"; lib "FI" "ytunnus"]);
      ("FR", [lib "FR" "siren"; lib "FR" "siret"; lib "FR" "tva"]);
      ("GB", [lib "GB" "vat"]);
      ("GR", [lib "GR" "vat"]);
      ("HR", [lib "HU" "anum"]);
      ("ID", [lib "ID" "npwp"]);
      ("IE", [lib "IE" "vat"]);
      ("IL", [lib "IL" "hp"]);
      ("IN", [lib "IN" "aadhaar"]);
      ("IS", [lib "IS" "kennitala"; lib "IS" "vsk"]);
      ("IT", [lib "IT" "iva"]);
      ("LI", [lib "LI" "peid"]);
      ("LT", [lib "LT" "pvm"]);
      ("LU", [lib "LU" "tva"]);
      ("LV", [lib "LV" "pvn"]);
      ("JP", [lib "JP" "cn"]);
      ("KR", [lib "KR" "brn"]);
      ("MC", [lib "MC" "tva"]);
      ("MD", [lib "MD" "idno"]);
      ("MT", [lib "MT" "vat"]);
      ("NL", [lib "NL" "btw"]);
      ("NZ", [lib "NZ" "ird"]);
      ("PE", [lib "PE" "ruc"]);
      ("SG", [lib "SG" "uen"]);
      ("TW", [lib "TW" "ubn"]);
      ("US", [lib "US" "ein"]);
      ("UY", [lib "UY" "rut"]);
      ("VN", [lib "VN" "mst"]);
      ("ZA", [lib "ZA" "tin"]) ].

Definition euVat : gmap string (list Validator) :=
  list_to_map
    [ ("AD", [lib "AD" "nrt"]);
      ("BE", [lib "BE" "vat"]);
      ("BG", [lib "BG" "vat"]);
      ("CH", [lib "CH" "vat"]);
      ("CY", [lib "CY" "vat"]);
      ("DE", [lib "DE" "vat"]);
      ("DK", [lib "DK" "cvr"]);
      ("ES", [lib "ES" "nif"]);
      ("FR", [lib "FR" "tva"]);
      ("GR", [lib "GR" "vat"]);
      ("IE", [lib "IE" "vat"]);
      ("IT", [lib "IT" "iva"]);
      ("LT", [lib "LT" "pvm"]);
      ("LU", [lib "LU" "tva"]);
      ("LV", [lib "LV" "pvn"]);
      ("MT", [lib "MT" "vat"]);
      ("NL", [lib "NL" "btw"]) ].

(** The body shared, word for word, by [validatePerson] and
    [validateEntity], for a given table. *)
Definition validateWith (table : gmap string (list Validator))
           (country value : string) : Verdict :=
  match table !! toLocaleUpperCase country with
  | None => {| isValid := None; checked := false |}
  | Some vset =>
      if (length vset =? 0)%nat
      then {| isValid := None; checked := false |}
      else
        let match_ := existsb (accepts value) vset in
        {| isValid := Some match_; checked := true |}
  end.

Definition validatePerson (country value : string) : Verdict :=
  validateWith personValidators country value.

Definition validateEntity (country value : string) : Verdict :=
  validateWith entityValidators country value.

End Index.

(** Upper-casing of the ASCII letters, what [toLocaleUpperCase] does on
    them in a locale without special casing rules; used in examples. *)
Definition upperASCII (s : string) : string :=
  string_of_list_ascii
    (map (fun c => let n := N_of_ascii c in
                   if ((97 <=? n) && (n <=? 122))%N then ascii_of_N (n - 32) else c)
         (list_ascii_of_string s)).

(** A library for examples: every validator accepts the non-empty
    strings of digits, except the Spanish [nie], which accepts nothing. *)
Definition sampleLib (module member : string) : Validator :=
  {| validate := fun value =>
       if (strings.isdigits value
           && negb (String.eqb module "ES" && String.eqb member "nie"))%bool
       then Valid value true false
       else Invalid InvalidFormat |}.

End Registry.

(** ** Vocabulary of the statements *)

(** The number written by a string of decimal digits. *)
Definition decimal (s : string) : Z := JS.parse_digits s 0.

(** A string of exactly eleven ASCII digits: a compact form. *)
Definition compactForm (number : string) : Prop :=
  String.length number = 11%nat /\ JS.all_digits number = true.

(** Number of digits [JS.to_digits] writes for [n] with the given fuel. *)
Fixpoint width (fuel : nat) (n : Z) : nat :=
  match fuel with
  | O => 1
  | S f => if n <? 10 then 1 else S (width f (n / 10))
  end.

(** Number of decimal digits of a non-negative integer, as printed. *)
Definition decimalWidth (n : Z) : Z :=
  Z.of_nat (String.length (JS.Number_toString (Some n))).

(** The decimal concatenation of the digit 2 and of the decimal writing
    of [n]. *)
Definition twoPrefixed (n : Z) : Z := 2 * 10 ^ decimalWidth n + n.

(** A reading of the clock from which one day can be added within the
    range of [Date]. *)
Definition dayAheadInRange (now : Z) : Prop :=
  Z.abs (now + JS.msPerDay) <= 8640000000000000.

(** The calendar date [y]-[m]-[d] exists and its midnight is not later
    than one day after [now]. *)
Definition pastDate (now y m d : Z) : Prop :=
  JS.isCalendarDate y m d = true /\ JS.utcMidnight y m d <= now + JS.msPerDay.

(** The date passes both filters of [getValidPastDates] for the given
    value of [approximatelyNow]. *)
Definition candidate (approximatelyNow : option Z) (y m d : Z) : bool :=
  (JS.isCalendarDate y m d
   && JS.Date_le (Some (JS.utcMidnight y m d)) approximatelyNow)%bool.

(** The years [getValidPastDates] keeps, in order, for the two-digit year
    [yy], the month [mm] and the day [dd]. *)
Definition pastYears (approximatelyNow : option Z) (yy mm dd : string) : list JS.number :=
  (if candidate approximatelyNow (decimal ("19" +:+ yy)) (decimal mm) (decimal dd)
   then [Some (decimal ("19" +:+ yy))] else [])
  ++ (if candidate approximatelyNow (decimal ("20" +:+ yy)) (decimal mm) (decimal dd)
      then [Some (decimal ("20" +:+ yy))] else []).

(** The rest of the clock after one reading. *)
Definition later (clk : Clock) : Clock := fun k => clk (S k).

(** Midnight UTC of 1 November 2026, an instant used in the examples. *)
Definition instant_2026_11_01 : Z := 1793491200000.

(** January 1st of [year] is not later than [approximatelyNow]: the test of
    [yearHasStarted]. *)
Definition started (approximatelyNow : option Z) (year : Z) : bool :=
  JS.Date_le (Some (JS.utcMidnight year 1 1)) approximatelyNow.

(** The list of bases when the base number [n] is kept or not ([b19]) and
    its 2-prefixed form is kept or not ([b20]). *)
Definition basesWhen (b19 b20 : bool) (n : Z) : list JS.number :=
  ((if b19 then [Some n] else []) ++ (if b20 then [Some (twoPrefixed n)] else []))%list.

(** The bases of a compact form, as a function of the two clock readings
    [t0] and [t1] that [getChecksumBases] may take: one basis for the
    sentinel; for a year-only date the years that have started (19yy at
    the first reading, 20yy at the second); for a dated number the
    completions that are past calendar dates at the first reading. *)
Definition basesOn (number : string) (t0 t1 : Z) : list JS.number :=
  let yy := decimal (substring 0 2 number) in
  let mm := substring 2 2 number in
  let dd := substring 4 2 number in
  let n := decimal (substring 0 9 number) in
  if String.eqb (substring 0 6 number) "000001" then [Some n]
  else if (String.eqb mm "00" && String.eqb dd "00")%bool then
    basesWhen (started (JS.TimeClip (t0 + JS.msPerDay)) (1900 + yy))
              (started (JS.TimeClip (t1 + JS.msPerDay)) (2000 + yy)) n
  else
    basesWhen (candidate (JS.TimeClip (t0 + JS.msPerDay)) (1900 + yy) (decimal mm) (decimal dd))
              (candidate (JS.TimeClip (t0 + JS.msPerDay)) (2000 + yy) (decimal mm) (decimal dd))
              n.

(** The country codes that have an entry in [personValidators]. *)
Definition personCodes : list string :=
  ["AZ"; "BA"; "BG"; "BY"; "CN"; "CH"; "CU"; "CZ"; "DE"; "EE"; "ES"; "FI"; "FR";
   "GB"; "GR"; "HK"; "HR"; "ID"; "IE"; "IL"; "IN"; "IS"; "IT"; "LI"; "LT"; "LV";
   "MU"; "KR"; "MX"; "MY"; "NL"; "NZ"; "PE"; "TH"; "US"; "UY"; "ZA"].

(** The country codes that have an entry in [entityValidators]. *)
Definition entityCodes : list string :=
  ["AU"; "BE"; "BG"; "BY"; "CN"; "CH"; "CY"; "CZ"; "DE"; "DK"; "EE"; "ES"; "FI";
   "FR"; "GB"; "GR"; "HR"; "ID"; "IE"; "IL"; "IN"; "IS"; "IT"; "LI"; "LT"; "LU";
   "LV"; "JP"; "KR"; "MC"; "MD"; "MT"; "NL"; "NZ"; "PE"; "SG"; "TW"; "US"; "UY";
   "VN"; "ZA"].

(** The two digits that write a number between 0 and 99. *)
Definition twoDigits (c : Z) : string :=
  String (JS.digit_char (c / 10)) (String (JS.digit_char (c mod 10)) "").

(** The checksum that a basis asks for. *)
Definition checksumFor (basis : Z) : Z := 97 - basis mod 97.

(** [new Date(`${year}`)] gives January 1st of [year], for the years of the
    given list. *)
Definition yearsParse (years : list Z) : bool :=
  forallb (fun y => match JS.Date_parse (JS.Number_toString (Some y)) with
                    | Some t => t =? JS.utcMidnight y 1 1
                    | None => false
                    end) years.

(** The checksum equation on a basis and a checksum. *)
Definition checksumEquation (basis checksum : Z) : Prop :=
  basis mod 97 + checksum = 97.

(** ** Lemmas on the built-ins *)

Section Builtins.

Lemma isdigit_range c :
  JS.isdigit c = true <-> 0 <= JS.digit_val c <= 9.
Proof.
  unfold JS.isdigit, JS.digit_val.
  rewrite andb_true_iff, !N.leb_le. lia.
Qed.

Lemma digit_char_digit d :
  0 <= d <= 9 -> JS.isdigit (JS.digit_char d) = true /\ JS.digit_val (JS.digit_char d) = d.
Proof.
  intros Hd.
  assert (Hc : d = 0 \/ d = 1 \/ d = 2 \/ d = 3 \/ d = 4 \/ d = 5 \/ d = 6
               \/ d = 7 \/ d = 8 \/ d = 9) by lia.
  repeat (destruct Hc as [-> | Hc]; [split; reflexivity |]).
  subst d. split; reflexivity.
Qed.

Lemma isdigit_not_dash c : JS.isdigit c = true -> Ascii.eqb c "-" = false.
Proof.
  intros H. destruct (Ascii.eqb_spec c "-") as [-> | ]; [discriminate H | reflexivity].
Qed.

Lemma parse_digits_nonneg s acc : 0 <= acc -> 0 <= JS.parse_digits s acc.
Proof.
  revert acc. induction s as [| c r IH]; intros acc Hacc; simpl; [assumption |].
  destruct (JS.isdigit c) eqn:Hc; [| assumption].
  apply IH. apply isdigit_range in Hc. lia.
Qed.

Lemma width_pos f n : (1 <= width f n)%nat.
Proof. destruct f; simpl; [| destruct (n <? 10)]; lia. Qed.

Lemma to_digits_length f : forall n acc,
  String.length (JS.to_digits f n acc) = (width f n + String.length acc)%nat.
Proof.
  induction f as [| f IH]; intros n acc; simpl; [reflexivity |].
  destruct (n <? 10); [reflexivity |].
  rewrite IH. simpl. lia.
Qed.

Lemma to_digits_parse f : forall n acc a,
  0 <= n < 10 ^ Z.of_nat (S f) ->
  JS.parse_digits (JS.to_digits f n acc) a
  = JS.parse_digits acc (a * 10 ^ Z.of_nat (width f n) + n).
Proof.
  induction f as [| f IH]; intros n acc a Hn.
  - change (10 ^ Z.of_nat 1) with 10 in Hn.
    simpl. rewrite Z.mod_small by lia.
    destruct (digit_char_digit n) as [-> ->]; [lia |].
    f_equal. change (Z.pow_pos 10 1) with 10. lia.
  - simpl JS.to_digits. simpl width.
    destruct (Z.ltb_spec n 10) as [Hlt | Hge].
    + simpl. rewrite Z.mod_small by lia.
      destruct (digit_char_digit n) as [-> ->]; [lia |].
      f_equal. change (Z.pow_pos 10 1) with 10. lia.
    + assert (Hq : 0 <= n / 10 < 10 ^ Z.of_nat (S f)).
      { split; [apply Z.div_pos; lia |].
        apply Z.div_lt_upper_bound; [lia |].
        replace (Z.of_nat (S (S f))) with (Z.succ (Z.of_nat (S f))) in Hn by lia.
        rewrite Z.pow_succ_r in Hn by lia. lia. }
      rewrite IH by exact Hq.
      simpl JS.parse_digits.
      destruct (digit_char_digit (n mod 10)) as [-> ->];
        [pose proof (Z.mod_pos_bound n 10); lia |].
      f_equal.
      replace (Z.of_nat (S (width f (n / 10)))) with (Z.succ (Z.of_nat (width f (n / 10)))) by lia.
      rewrite Z.pow_succ_r by lia.
      pose proof (Z.div_mod n 10). lia.
Qed.

Lemma width_bounds f : forall n,
  0 < n < 10 ^ Z.of_nat (S f) ->
  10 ^ (Z.of_nat (width f n) - 1) <= n < 10 ^ Z.of_nat (width f n).
Proof.
  induction f as [| f IH]; intros n Hn.
  - change (10 ^ Z.of_nat 1) with 10 in Hn. simpl.
    change (Z.pow_pos 10 1) with 10. lia.
  - simpl width. destruct (Z.ltb_spec n 10) as [Hlt | Hge].
    + simpl. change (Z.pow_pos 10 1) with 10. lia.
    + assert (Hq : 0 < n / 10 < 10 ^ Z.of_nat (S f)).
      { split; [apply Z.div_str_pos; lia |].
        apply Z.div_lt_upper_bound; [lia |].
        replace (Z.of_nat (S (S f))) with (Z.succ (Z.of_nat (S f))) in Hn by lia.
        rewrite Z.pow_succ_r in Hn by lia. lia. }
      specialize (IH _ Hq).
      replace (Z.of_nat (S (width f (n / 10))) - 1) with (Z.succ (Z.of_nat (width f (n / 10)) - 1)) by lia.
      replace (Z.of_nat (S (width f (n / 10)))) with (Z.succ (Z.of_nat (width f (n / 10)))) by lia.
      pose proof (width_pos f (n / 10)).
      rewrite !Z.pow_succ_r by lia.
      pose proof (Z.div_mod n 10). pose proof (Z.mod_pos_bound n 10). lia.
Qed.

(** The fuel [Number_toString] gives is enough. *)
Lemma log2_fuel n : 0 <= n -> n < 10 ^ Z.of_nat (S (Z.to_nat (Z.log2 n))).
Proof.
  intros Hn.
  destruct (Z.eq_dec n 0) as [-> | Hnz]; [reflexivity |].
  pose proof (Z.log2_nonneg n) as Hl.
  destruct (Z.log2_spec n) as [_ Hup]; [lia |].
  replace (Z.of_nat (S (Z.to_nat (Z.log2 n)))) with (Z.succ (Z.log2 n)) by lia.
  eapply Z.lt_le_trans; [exact Hup |].
  apply Z.pow_le_mono_l. lia.
Qed.

Lemma decimalWidth_width n :
  0 <= n -> decimalWidth n = Z.of_nat (width (Z.to_nat (Z.log2 n)) n).
Proof.
  intros Hn. unfold decimalWidth, JS.Number_toString.
  destruct (Z.ltb_spec n 0); [lia |].
  rewrite to_digits_length. simpl. lia.
Qed.

(** Parsing the digit 2 followed by the printed form of [n]. *)
Lemma parseInt_two_prefixed n :
  0 <= n -> JS.parseInt ("2" +:+ JS.Number_toString (Some n)) = Some (twoPrefixed n).
Proof.
  intros Hn. unfold twoPrefixed. rewrite decimalWidth_width by assumption.
  unfold JS.Number_toString. destruct (Z.ltb_spec n 0); [lia |].
  change ("2" +:+ ?x) with (String "2" x).
  cbn [JS.parseInt JS.parse_digits]. change (JS.isdigit "2") with true. cbv iota.
  change (10 * 0 + JS.digit_val "2") with 2.
  rewrite to_digits_parse by (split; [assumption | apply log2_fuel; assumption]).
  reflexivity.
Qed.

Lemma decimalWidth_bounds n :
  (n = 0 -> decimalWidth n = 1)
  /\ (0 < n -> 10 ^ (decimalWidth n - 1) <= n < 10 ^ decimalWidth n).
Proof.
  split.
  - intros ->. reflexivity.
  - intros Hn. rewrite decimalWidth_width by lia.
    apply width_bounds. split; [assumption | apply log2_fuel; lia].
Qed.

End Builtins.

(** ** Lemmas on the helpers, on strings of digits *)

Ltac use_digits :=
  repeat match goal with
         | H : JS.isdigit ?c = true |- context [JS.isdigit ?c] => rewrite H
         end.

Section Digits.

Variables k1 k2 c1 c2 c3 c4 c5 c6 : ascii.
Hypothesis Hk1 : JS.isdigit k1 = true.
Hypothesis Hk2 : JS.isdigit k2 = true.
Hypothesis H1 : JS.isdigit c1 = true.
Hypothesis H2 : JS.isdigit c2 = true.
Hypothesis H3 : JS.isdigit c3 = true.
Hypothesis H4 : JS.isdigit c4 = true.
Hypothesis H5 : JS.isdigit c5 = true.
Hypothesis H6 : JS.isdigit c6 = true.

Let yyyy : string := String k1 (String k2 (String c1 (String c2 ""))).
Let mm : string := String c3 (String c4 "").
Let dd : string := String c5 (String c6 "").

Lemma isValidDateCompactYYYYMMDD_digits :
  isValidDateCompactYYYYMMDD (yyyy +:+ mm +:+ dd)
  = JS.isCalendarDate (decimal yyyy) (decimal mm) (decimal dd).
Proof using All.
  cbv beta iota zeta delta
      [isValidDateCompactYYYYMMDD yyyy mm dd String.append strings.splitAt
       strings.splitAt_from substring String.length Nat.sub JS.parseInt].
  use_digits. reflexivity.
Qed.

Lemma Date_parse_digits :
  JS.Date_parse (yyyy +:+ "-" +:+ mm +:+ "-" +:+ dd)
  = if JS.isCalendarDate (decimal yyyy) (decimal mm) (decimal dd)
    then Some (JS.utcMidnight (decimal yyyy) (decimal mm) (decimal dd))
    else None.
Proof using All.
  cbv beta iota zeta delta
      [JS.Date_parse yyyy mm dd String.append substring String.length Nat.eqb
       andb JS.all_digits list_ascii_of_string forallb].
  use_digits.
  reflexivity.
Qed.

End Digits.

Section FirstSix.

Variables c1 c2 c3 c4 c5 c6 : ascii.
Hypothesis H1 : JS.isdigit c1 = true.
Hypothesis H2 : JS.isdigit c2 = true.
Hypothesis H3 : JS.isdigit c3 = true.
Hypothesis H4 : JS.isdigit c4 = true.
Hypothesis H5 : JS.isdigit c5 = true.
Hypothesis H6 : JS.isdigit c6 = true.

Let yy : string := String c1 (String c2 "").
Let mm : string := String c3 (String c4 "").
Let dd : string := String c5 (String c6 "").
Let firstSix : string := yy +:+ mm +:+ dd.

Lemma toDateArray_digits : NN.toDateArray firstSix = [yy; mm; dd].
Proof using All. reflexivity. Qed.

Lemma isDobWithOnlyYearKnown_digits :
  NN.isDobWithOnlyYearKnown firstSix = (String.eqb mm "00" && String.eqb dd "00")%bool.
Proof using All.
  unfold NN.isDobWithOnlyYearKnown. rewrite toDateArray_digits.
  cbv beta iota zeta delta
      [JS.item nth strings.isdigits yy JS.all_digits list_ascii_of_string forallb].
  use_digits. reflexivity.
Qed.

Lemma century_year k1 k2 :
  JS.isdigit k1 = true -> JS.isdigit k2 = true ->
  decimal (String k1 (String k2 "") +:+ yy)
  = 100 * decimal (String k1 (String k2 "")) + decimal yy
  /\ 0 <= decimal yy <= 99.
Proof using All.
  intros Hk1 Hk2.
  cbv beta iota zeta delta [decimal yy String.append JS.parse_digits].
  use_digits.
  apply isdigit_range in H1, H2, Hk1, Hk2. lia.
Qed.

Lemma getApproximatelyNow_eq clk :
  NN.getApproximatelyNow clk = (JS.TimeClip (clk 0%nat + JS.msPerDay), later clk).
Proof using All. reflexivity. Qed.

Lemma beforeDash_digits k1 k2 :
  JS.isdigit k1 = true -> JS.isdigit k2 = true ->
  JS.parseInt (NN.beforeDash ((String k1 (String k2 "") +:+ yy) +:+ "-" +:+ mm +:+ "-" +:+ dd))
  = Some (decimal (String k1 (String k2 "") +:+ yy)).
Proof using All.
  intros Hk1 Hk2.
  cbv beta iota zeta delta [yy String.append NN.beforeDash].
  rewrite !isdigit_not_dash by assumption.
  change (Ascii.eqb "-" "-") with true. cbv iota.
  cbv beta iota zeta delta [JS.parseInt]. use_digits. reflexivity.
Qed.

Lemma getValidPastDates_digits clk :
  exists dates,
    NN.getValidPastDates firstSix clk = (dates, later clk)
    /\ map (fun date => JS.parseInt (NN.beforeDash date)) dates
       = pastYears (JS.TimeClip (clk 0%nat + JS.msPerDay)) yy mm dd.
Proof using All.
  unfold NN.getValidPastDates. rewrite toDateArray_digits.
  unfold bind. rewrite getApproximatelyNow_eq.
  eexists. split; [reflexivity |].
  set (now := JS.TimeClip _).
  cbv beta iota zeta delta [JS.item nth map List.filter].
  assert (E19 := isValidDateCompactYYYYMMDD_digits "1" "9" c1 c2 c3 c4 c5 c6
                   eq_refl eq_refl H1 H2 H3 H4 H5 H6).
  assert (E20 := isValidDateCompactYYYYMMDD_digits "2" "0" c1 c2 c3 c4 c5 c6
                   eq_refl eq_refl H1 H2 H3 H4 H5 H6).
  assert (D19 := Date_parse_digits "1" "9" c1 c2 c3 c4 c5 c6
                   eq_refl eq_refl H1 H2 H3 H4 H5 H6).
  assert (D20 := Date_parse_digits "2" "0" c1 c2 c3 c4 c5 c6
                   eq_refl eq_refl H1 H2 H3 H4 H5 H6).
  assert (B19 := beforeDash_digits "1" "9" eq_refl eq_refl).
  assert (B20 := beforeDash_digits "2" "0" eq_refl eq_refl).
  change (isValidDateCompactYYYYMMDD (("19" +:+ yy) +:+ mm +:+ dd)
          = JS.isCalendarDate (decimal ("19" +:+ yy)) (decimal mm) (decimal dd)) in E19.
  change (isValidDateCompactYYYYMMDD (("20" +:+ yy) +:+ mm +:+ dd)
          = JS.isCalendarDate (decimal ("20" +:+ yy)) (decimal mm) (decimal dd)) in E20.
  change (JS.Date_parse (("19" +:+ yy) +:+ "-" +:+ mm +:+ "-" +:+ dd)
          = if JS.isCalendarDate (decimal ("19" +:+ yy)) (decimal mm) (decimal dd)
            then Some (JS.utcMidnight (decimal ("19" +:+ yy)) (decimal mm) (decimal dd))
            else None) in D19.
  change (JS.Date_parse (("20" +:+ yy) +:+ "-" +:+ mm +:+ "-" +:+ dd)
          = if JS.isCalendarDate (decimal ("20" +:+ yy)) (decimal mm) (decimal dd)
            then Some (JS.utcMidnight (decimal ("20" +:+ yy)) (decimal mm) (decimal dd))
            else None) in D20.
  rewrite E19, E20. unfold pastYears, candidate.
  destruct (JS.isCalendarDate (decimal ("19" +:+ yy)) _ _) eqn:C19;
    destruct (JS.isCalendarDate (decimal ("20" +:+ yy)) _ _) eqn:C20;
    rewrite ?D19, ?D20, ?C19, ?C20; cbn [andb app];
    repeat match goal with
           | |- context [JS.Date_le ?a ?b] => destruct (JS.Date_le a b)
           end;
    rewrite ?B19, ?B20; reflexivity.
Qed.

End FirstSix.

Section Compact.

Variables c1 c2 c3 c4 c5 c6 c7 c8 c9 c10 c11 : ascii.
Hypothesis H1 : JS.isdigit c1 = true.
Hypothesis H2 : JS.isdigit c2 = true.
Hypothesis H3 : JS.isdigit c3 = true.
Hypothesis H4 : JS.isdigit c4 = true.
Hypothesis H5 : JS.isdigit c5 = true.
Hypothesis H6 : JS.isdigit c6 = true.
Hypothesis H7 : JS.isdigit c7 = true.
Hypothesis H8 : JS.isdigit c8 = true.
Hypothesis H9 : JS.isdigit c9 = true.
Hypothesis H10 : JS.isdigit c10 = true.
Hypothesis H11 : JS.isdigit c11 = true.

Let yy : string := String c1 (String c2 "").
Let mm : string := String c3 (String c4 "").
Let dd : string := String c5 (String c6 "").
Let firstSix : string := yy +:+ mm +:+ dd.
Let firstNine : string := firstSix +:+ String c7 (String c8 (String c9 "")).
Let lastTwo : string := String c10 (String c11 "").
Let number : string := firstNine +:+ lastTwo.

Lemma getFirstSix_digits : NN.getFirstSix number = firstSix.
Proof using All. reflexivity. Qed.

Lemma getBaseNumberAndChecksum_digits :
  NN.getBaseNumberAndChecksum number = [Some (decimal firstNine); Some (decimal lastTwo)].
Proof using All.
  cbv beta iota zeta delta
      [NN.getBaseNumberAndChecksum number firstNine firstSix yy mm dd lastTwo
       String.append strings.splitAt strings.splitAt_from substring String.length
       Nat.sub map JS.parseInt].
  use_digits. reflexivity.
Qed.

Lemma decimal_bounds :
  0 <= decimal firstNine <= 999999999 /\ 0 <= decimal lastTwo <= 99
  /\ decimal number = 100 * decimal firstNine + decimal lastTwo.
Proof using All.
  cbv beta iota zeta delta
      [decimal number firstNine firstSix yy mm dd lastTwo String.append JS.parse_digits].
  use_digits.
  apply isdigit_range in H1, H2, H3, H4, H5, H6, H7, H8, H9, H10, H11.
  lia.
Qed.

Lemma isdigits_digits : strings.isdigits number = true.
Proof using All.
  cbv beta iota zeta delta
      [strings.isdigits number firstNine firstSix yy mm dd lastTwo String.append
       JS.all_digits list_ascii_of_string forallb].
  use_digits. reflexivity.
Qed.

Lemma parseInt_digits : JS.parseInt number = Some (decimal number).
Proof using All.
  cbv beta iota zeta delta
      [JS.parseInt number firstNine firstSix yy mm dd lastTwo String.append].
  use_digits. reflexivity.
Qed.

Lemma yearOnly_eq :
  NN.isDobWithOnlyYearKnown firstSix = (String.eqb mm "00" && String.eqb dd "00")%bool.
Proof using All. exact (isDobWithOnlyYearKnown_digits c1 c2 c3 c4 c5 c6 H1 H2 H3 H4 H5 H6). Qed.

Lemma pastDates_eq clk :
  exists dates,
    NN.getValidPastDates firstSix clk = (dates, later clk)
    /\ map (fun date => JS.parseInt (NN.beforeDash date)) dates
       = pastYears (JS.TimeClip (clk 0%nat + JS.msPerDay)) yy mm dd.
Proof using All. exact (getValidPastDates_digits c1 c2 c3 c4 c5 c6 H1 H2 H3 H4 H5 H6 clk). Qed.

(** What [validStructure] computes, reading by reading. *)
Lemma validStructure_digits clk :
  NN.validStructure number clk =
  if (NN.isCompletelyUnknownDob firstSix
      || (String.eqb mm "00" && String.eqb dd "00"))%bool
  then (true, clk)
  else (negb (length (pastYears (JS.TimeClip (clk 0%nat + JS.msPerDay)) yy mm dd) =? 0)%nat,
        later clk).
Proof using All.
  unfold NN.validStructure. rewrite getFirstSix_digits.
  unfold NN.isValidFirstSix.
  rewrite yearOnly_eq.
  destruct (_ || _)%bool; [reflexivity |].
  unfold NN.isValidDob, bind.
  destruct (pastDates_eq clk) as (dates & -> & Hyears).
  rewrite <- Hyears, length_map. reflexivity.
Qed.

(** Every basis is the base number or its 2-prefixed form. *)
Lemma toChecksumBasis_cases year :
  NN.toChecksumBasis year (Some (decimal firstNine)) = Some (decimal firstNine)
  \/ NN.toChecksumBasis year (Some (decimal firstNine))
     = Some (twoPrefixed (decimal firstNine)).
Proof using All.
  unfold NN.toChecksumBasis.
  rewrite parseInt_two_prefixed by apply decimal_bounds.
  destruct (JS.lt year (Some 2000)); [left | right]; reflexivity.
Qed.

(** What [getChecksumBases] computes in the standard case. *)
Lemma getChecksumBases_standard clk :
  NN.isCompletelyUnknownDob firstSix = false ->
  (String.eqb mm "00" && String.eqb dd "00")%bool = false ->
  NN.getChecksumBases number clk =
  (map (fun year => NN.toChecksumBasis year (Some (decimal firstNine)))
       (pastYears (JS.TimeClip (clk 0%nat + JS.msPerDay)) yy mm dd),
   later clk).
Proof using All.
  intros Hs Hy. unfold NN.getChecksumBases.
  rewrite getFirstSix_digits, getBaseNumberAndChecksum_digits.
  rewrite yearOnly_eq, Hs, Hy.
  unfold NN.getChecksumBasesForStandardDate, bind.
  destruct (pastDates_eq clk) as (dates & -> & Hyears).
  cbn [nth]. unfold ret. f_equal.
  rewrite <- Hyears, List.map_map. reflexivity.
Qed.

(** Whatever the case, the bases are non-negative integers of the two
    possible forms. *)
Lemma getChecksumBases_forms clk b :
  In b (fst (NN.getChecksumBases number clk)) ->
  b = Some (decimal firstNine) \/ b = Some (twoPrefixed (decimal firstNine)).
Proof using All.
  unfold NN.getChecksumBases.
  rewrite getFirstSix_digits, getBaseNumberAndChecksum_digits.
  cbn [nth].
  destruct (NN.isCompletelyUnknownDob firstSix).
  { cbn. intros [<- | []]. left; reflexivity. }
  destruct (NN.isDobWithOnlyYearKnown firstSix).
  - unfold NN.getBaseNumbersForOnlyYearKnown, bind.
    destruct (filterM _ _ clk) as [started clk'].
    cbn [ret fst]. rewrite in_map_iff. intros (year & <- & _).
    destruct (toChecksumBasis_cases year) as [-> | ->]; auto.
  - unfold NN.getChecksumBasesForStandardDate, bind.
    destruct (NN.getValidPastDates firstSix clk) as [dates clk'].
    cbn [ret fst]. rewrite in_map_iff. intros (year & <- & _).
    destruct (toChecksumBasis_cases year) as [-> | ->]; auto.
Qed.

End Compact.

(** ** The same facts for any compact form *)

Lemma compactForm_inv number :
  compactForm number ->
  exists c1 c2 c3 c4 c5 c6 c7 c8 c9 c10 c11,
    number = String c1 (String c2 (String c3 (String c4 (String c5 (String c6
             (String c7 (String c8 (String c9 (String c10 (String c11 ""))))))))))
    /\ JS.isdigit c1 = true /\ JS.isdigit c2 = true /\ JS.isdigit c3 = true
    /\ JS.isdigit c4 = true /\ JS.isdigit c5 = true /\ JS.isdigit c6 = true
    /\ JS.isdigit c7 = true /\ JS.isdigit c8 = true /\ JS.isdigit c9 = true
    /\ JS.isdigit c10 = true /\ JS.isdigit c11 = true.
Proof.
  intros [Hlen Hdig].
  do 11 (destruct number as [| ? number]; [discriminate Hlen |]).
  destruct number; [| discriminate Hlen].
  cbv beta iota zeta delta [JS.all_digits list_ascii_of_string forallb] in Hdig.
  repeat (apply andb_true_iff in Hdig; destruct Hdig as [? Hdig]).
  do 11 eexists. repeat split; eassumption.
Qed.

Ltac by_digits number H lemma :=
  destruct (compactForm_inv number H)
    as (c1 & c2 & c3 & c4 & c5 & c6 & c7 & c8 & c9 & c10 & c11 & -> &
        H1 & H2 & H3 & H4 & H5 & H6 & H7 & H8 & H9 & H10 & H11);
  exact (lemma c1 c2 c3 c4 c5 c6 c7 c8 c9 c10 c11 H1 H2 H3 H4 H5 H6 H7 H8 H9 H10 H11).

Section CompactForm.

Variable number : string.
Hypothesis Hcompact : compactForm number.

Let firstSix := substring 0 6 number.
Let yy := substring 0 2 number.
Let mm := substring 2 2 number.
Let dd := substring 4 2 number.
Let baseNumber := decimal (substring 0 9 number).
Let checksum := decimal (substring 9 2 number).

Lemma compact_getFirstSix : NN.getFirstSix number = firstSix.
Proof using Hcompact. by_digits number Hcompact getFirstSix_digits. Qed.

Lemma compact_getBaseNumberAndChecksum :
  NN.getBaseNumberAndChecksum number = [Some baseNumber; Some checksum].
Proof using Hcompact. by_digits number Hcompact getBaseNumberAndChecksum_digits. Qed.

Lemma compact_bounds :
  0 <= baseNumber <= 999999999 /\ 0 <= checksum <= 99
  /\ decimal number = 100 * baseNumber + checksum.
Proof using Hcompact. by_digits number Hcompact decimal_bounds. Qed.

Lemma compact_isdigits : strings.isdigits number = true.
Proof using Hcompact. by_digits number Hcompact isdigits_digits. Qed.

Lemma compact_parseInt : JS.parseInt number = Some (decimal number).
Proof using Hcompact. by_digits number Hcompact parseInt_digits. Qed.

Lemma compact_yearOnly :
  NN.isDobWithOnlyYearKnown firstSix = (String.eqb mm "00" && String.eqb dd "00")%bool.
Proof using Hcompact. by_digits number Hcompact yearOnly_eq. Qed.

Lemma compact_validStructure clk :
  NN.validStructure number clk =
  if (NN.isCompletelyUnknownDob firstSix
      || (String.eqb mm "00" && String.eqb dd "00"))%bool
  then (true, clk)
  else (negb (length (pastYears (JS.TimeClip (clk 0%nat + JS.msPerDay)) yy mm dd) =? 0)%nat,
        later clk).
Proof using Hcompact.
  revert clk. by_digits number Hcompact validStructure_digits.
Qed.

Lemma compact_bases_standard clk :
  NN.isCompletelyUnknownDob firstSix = false ->
  (String.eqb mm "00" && String.eqb dd "00")%bool = false ->
  NN.getChecksumBases number clk =
  (map (fun year => NN.toChecksumBasis year (Some baseNumber))
       (pastYears (JS.TimeClip (clk 0%nat + JS.msPerDay)) yy mm dd),
   later clk).
Proof using Hcompact.
  revert clk. by_digits number Hcompact getChecksumBases_standard.
Qed.

Lemma compact_bases_forms clk b :
  In b (fst (NN.getChecksumBases number clk)) ->
  b = Some baseNumber \/ b = Some (twoPrefixed baseNumber).
Proof using Hcompact.
  revert clk b. by_digits number Hcompact getChecksumBases_forms.
Qed.

Lemma compact_century_year :
  decimal ("19" +:+ yy) = 1900 + decimal yy
  /\ decimal ("20" +:+ yy) = 2000 + decimal yy
  /\ 0 <= decimal yy <= 99.
Proof using Hcompact.
  destruct (compactForm_inv number Hcompact)
    as (c1 & c2 & c3 & c4 & c5 & c6 & c7 & c8 & c9 & c10 & c11 & Hn &
        H1 & H2 & H3 & H4 & H5 & H6 & H7 & H8 & H9 & H10 & H11).
  subst yy. rewrite Hn.
  destruct (century_year c1 c2 c3 c4 c5 c6 H1 H2 H3 H4 H5 H6 "1" "9" eq_refl eq_refl)
    as [E19 Hb].
  destruct (century_year c1 c2 c3 c4 c5 c6 H1 H2 H3 H4 H5 H6 "2" "0" eq_refl eq_refl)
    as [E20 _].
  split; [exact E19 | split; [exact E20 | exact Hb]].
Qed.

End CompactForm.

(** ** The pipeline of [validate] *)

Section Pipeline.

Variable cleanUnicode : string -> string -> string * option Error.

Lemma compact_clean input :
  NN.compact cleanUnicode input =
  match snd (NN.clean cleanUnicode input) with
  | Some e => Throw e
  | None => Return (fst (NN.clean cleanUnicode input))
  end.
Proof.
  unfold NN.compact. destruct (NN.clean cleanUnicode input) as [value [e |]]; reflexivity.
Qed.

(** On an input that cleans to a positive compact form, [validate] is the
    structure check followed by the checksum check. *)
Lemma validate_pipeline input number clk :
  NN.clean cleanUnicode input = (number, None) ->
  compactForm number ->
  0 < decimal number ->
  NN.validate cleanUnicode input clk =
  (let '(structure, clk1) := NN.validStructure number clk in
   if negb structure then (Return (Invalid InvalidFormat), clk1)
   else
     let '(checksum, clk2) := NN.validChecksum number clk1 in
     (if negb checksum then Return (Invalid InvalidChecksum)
      else Return (Valid number true false), clk2)).
Proof.
  intros Hclean Hc Hpos.
  unfold NN.validate. rewrite compact_clean, Hclean. cbn [fst snd].
  rewrite (compact_isdigits number Hc), (compact_parseInt number Hc).
  destruct Hc as [Hlen _]. rewrite Hlen.
  cbn [negb orb JS.le Nat.eqb].
  destruct (Z.leb_spec (decimal number) 0) as [Hle | _]; [lia |].
  unfold bind.
  destruct (NN.validStructure number clk) as [[|] clk1]; cbn [negb]; [| reflexivity].
  destruct (NN.validChecksum number clk1) as [[|] clk2]; reflexivity.
Qed.

Lemma twoPrefixed_nonneg n : 0 <= n -> 0 <= twoPrefixed n.
Proof.
  intros Hn. unfold twoPrefixed.
  assert (0 <= 10 ^ decimalWidth n) by (apply Z.pow_nonneg; lia). lia.
Qed.

(** The search of [validChecksum] among the bases. *)
Lemma validChecksum_search number clk :
  compactForm number ->
  fst (NN.validChecksum number clk) = true <->
  exists b, In (Some b) (fst (NN.getChecksumBases number clk))
            /\ checksumEquation b (decimal (substring 9 2 number)).
Proof.
  intros Hc. unfold NN.validChecksum, bind.
  pose proof (compact_bases_forms number Hc clk) as Hforms.
  destruct (NN.getChecksumBases number clk) as [bases clk'].
  rewrite (compact_getBaseNumberAndChecksum number Hc).
  cbn [nth ret fst] in *. rewrite existsb_exists.
  destruct (compact_bounds number Hc) as (Hn & _ & _).
  pose proof (twoPrefixed_nonneg _ (proj1 Hn)) as Htwo.
  unfold checksumEquation. split.
  - intros (b & Hin & Heq).
    destruct (Hforms b Hin) as [-> | ->]; cbn [JS.rem_plus_eq] in Heq;
      apply Z.eqb_eq in Heq; rewrite Z.rem_mod_nonneg in Heq by lia;
      eexists; (split; [exact Hin | exact Heq]).
  - intros (b & Hin & Heq). exists (Some b). split; [exact Hin |].
    cbn [JS.rem_plus_eq]. apply Z.eqb_eq.
    destruct (Hforms _ Hin) as [E | E]; injection E as ->;
      rewrite Z.rem_mod_nonneg by lia; exact Heq.
Qed.

(** [candidate] is [pastDate] when one day ahead is in range. *)
Lemma candidate_pastDate now y m d :
  dayAheadInRange now ->
  candidate (JS.TimeClip (now + JS.msPerDay)) y m d = true <-> pastDate now y m d.
Proof.
  unfold dayAheadInRange, candidate, pastDate, JS.TimeClip. intros Hr.
  destruct (Z.leb_spec (Z.abs (now + JS.msPerDay)) 8640000000000000); [| lia].
  cbn [JS.Date_le JS.le]. rewrite andb_true_iff, Z.leb_le. reflexivity.
Qed.

Lemma pastYears_nonempty now yy mm dd :
  dayAheadInRange now ->
  negb (length (pastYears (JS.TimeClip (now + JS.msPerDay)) yy mm dd) =? 0)%nat = true <->
  exists century, (century = "19" \/ century = "20")
                  /\ pastDate now (decimal (century +:+ yy)) (decimal mm) (decimal dd).
Proof.
  intros Hr. unfold pastYears.
  pose proof (candidate_pastDate now (decimal ("19" +:+ yy)) (decimal mm) (decimal dd) Hr) as P19.
  pose proof (candidate_pastDate now (decimal ("20" +:+ yy)) (decimal mm) (decimal dd) Hr) as P20.
  destruct (candidate _ (decimal ("19" +:+ yy)) _ _);
    destruct (candidate _ (decimal ("20" +:+ yy)) _ _); cbn; split; intros H;
    try reflexivity; try discriminate.
  - exists "19". split; [left; reflexivity | apply P19; reflexivity].
  - exists "19". split; [left; reflexivity | apply P19; reflexivity].
  - exists "20". split; [right; reflexivity | apply P20; reflexivity].
  - destruct H as (c & [-> | ->] & Hp); [apply P19 in Hp | apply P20 in Hp]; discriminate.
Qed.

End Pipeline.

(** * Properties of the validator *)

(** C2. Structural validation of an input that cleans to eleven digits of
    positive value depends only on the first six digits (and on the clock
    reading), and holds exactly when the first six digits are ["000001"],
    or the month and day digits are both ["00"] (the year digits being
    digits), or one of the completions 19yy, 20yy is a calendar date not
    later than the current instant plus one day; when it fails, [validate]
    reports [InvalidFormat]. *)
Theorem validStructure_three_cases
        (cleanUnicode : string -> string -> string * option Error)
        (input number : string) (clk : Clock) :
  NN.clean cleanUnicode input = (number, None) ->
  compactForm number ->
  0 < decimal number ->
  dayAheadInRange (clk 0%nat) ->
  let firstSix := substring 0 6 number in
  let yy := substring 0 2 number in
  let mm := substring 2 2 number in
  let dd := substring 4 2 number in
  (run (NN.validStructure number) clk = true <->
     firstSix = "000001"
     \/ (strings.isdigits yy = true /\ mm = "00" /\ dd = "00")
     \/ exists century,
          (century = "19" \/ century = "20")
          /\ pastDate (clk 0%nat) (decimal (century +:+ yy)) (decimal mm) (decimal dd))
  /\ (run (NN.validStructure number) clk = false ->
      run (NN.validate cleanUnicode input) clk = Return (Invalid InvalidFormat))
  /\ (forall number',
        compactForm number' ->
        substring 0 6 number' = firstSix ->
        run (NN.validStructure number') clk = run (NN.validStructure number) clk).
Proof.
  intros Hclean Hc Hpos Hrange firstSix yy mm dd.
  assert (Hyy : strings.isdigits yy = true).
  { destruct (compactForm_inv number Hc)
      as (c1 & c2 & c3 & c4 & c5 & c6 & c7 & c8 & c9 & c10 & c11 & Hn &
          H1 & H2 & _).
    subst yy. rewrite Hn.
    cbv beta iota zeta delta
        [substring strings.isdigits JS.all_digits list_ascii_of_string forallb].
    use_digits. reflexivity. }
  split; [| split].
  - unfold run. rewrite (compact_validStructure number Hc).
    fold firstSix yy mm dd. unfold NN.isCompletelyUnknownDob.
    destruct (String.eqb_spec firstSix "000001") as [Hs | Hs].
    { cbn. split; auto. }
    destruct (String.eqb_spec mm "00") as [Hm | Hm];
      [destruct (String.eqb_spec dd "00") as [Hd | Hd] |]; cbn [orb andb fst].
    + split; auto.
    + rewrite pastYears_nonempty by assumption.
      split; [auto | intros [? | [(_ & _ & ?) | ?]]; [contradiction | contradiction | assumption]].
    + rewrite pastYears_nonempty by assumption.
      split; [auto | intros [? | [(_ & ? & _) | ?]]; [contradiction | contradiction | assumption]].
  - unfold run. rewrite (validate_pipeline cleanUnicode input number clk) by assumption.
    destruct (NN.validStructure number clk) as [[|] clk1]; cbn; [discriminate | reflexivity].
  - intros number' Hc' Hfs. unfold run, NN.validStructure.
    rewrite (compact_getFirstSix number' Hc'), (compact_getFirstSix number Hc), Hfs.
    reflexivity.
Qed.

Lemma validStructure_three_cases_witness :
  run (NN.validStructure "85073003328") (frozen instant_2026_11_01) = true <->
  substring 0 6 "85073003328" = "000001"
  \/ (strings.isdigits (substring 0 2 "85073003328") = true
      /\ substring 2 2 "85073003328" = "00" /\ substring 4 2 "85073003328" = "00")
  \/ exists century,
       (century = "19" \/ century = "20")
       /\ pastDate (frozen instant_2026_11_01 0%nat)
                   (decimal (century +:+ substring 0 2 "85073003328"))
                   (decimal (substring 2 2 "85073003328"))
                   (decimal (substring 4 2 "85073003328")).
Proof.
  apply (validStructure_three_cases strings.cleanUnicode_spec "85.07.30-033 28"
           "85073003328" (frozen instant_2026_11_01)).
  - reflexivity.
  - split; reflexivity.
  - reflexivity.
  - unfold dayAheadInRange. vm_compute. discriminate.
Defined.

(** C1 (as amended). For an input that cleans to eleven digits of positive
    value and passes structural validation, [validate] succeeds exactly
    when one of the bases of [getChecksumBases] satisfies
    [(b mod 97) + checksum = 97], the checksum being the number of the last
    two digits, and reports [InvalidChecksum] otherwise.  The bases are
    non-negative integers.  In the standard case the base number is tried
    exactly when the completion 19yy is a calendar date not later than the
    current instant plus one day, and its 2-prefixed form exactly when the
    completion 20yy is one; when both are, the bases are these two. *)
Theorem validate_iff_some_basis_matches
        (cleanUnicode : string -> string -> string * option Error)
        (input number : string) (clk clk' : Clock) :
  NN.clean cleanUnicode input = (number, None) ->
  compactForm number ->
  0 < decimal number ->
  NN.validStructure number clk = (true, clk') ->
  let bases := run (NN.getChecksumBases number) clk' in
  let baseNumber := decimal (substring 0 9 number) in
  let checksum := decimal (substring 9 2 number) in
  let yy := substring 0 2 number in
  let mm := substring 2 2 number in
  let dd := substring 4 2 number in
  (forall b, In b bases -> exists z, b = Some z /\ 0 <= z)
  /\ (run (NN.validate cleanUnicode input) clk = Return (Valid number true false) <->
      exists b, In (Some b) bases /\ checksumEquation b checksum)
  /\ ((~ exists b, In (Some b) bases /\ checksumEquation b checksum) ->
      run (NN.validate cleanUnicode input) clk = Return (Invalid InvalidChecksum))
  /\ (substring 0 6 number <> "000001" ->
      ~ (mm = "00" /\ dd = "00") ->
      dayAheadInRange (clk' 0%nat) ->
      let past19 := pastDate (clk' 0%nat) (decimal ("19" +:+ yy)) (decimal mm) (decimal dd) in
      let past20 := pastDate (clk' 0%nat) (decimal ("20" +:+ yy)) (decimal mm) (decimal dd) in
      (In (Some baseNumber) bases <-> past19)
      /\ (In (Some (twoPrefixed baseNumber)) bases <-> past20)
      /\ (past19 -> past20 -> bases = [Some baseNumber; Some (twoPrefixed baseNumber)])).
Proof.
  intros Hclean Hc Hpos Hstruct bases baseNumber checksum yy mm dd.
  pose proof (validChecksum_search number clk' Hc) as Hsearch.
  fold checksum in Hsearch. change (fst (NN.getChecksumBases number clk')) with bases in Hsearch.
  assert (Hval : run (NN.validate cleanUnicode input) clk =
                 if fst (NN.validChecksum number clk')
                 then Return (Valid number true false)
                 else Return (Invalid InvalidChecksum)).
  { unfold run. rewrite (validate_pipeline cleanUnicode input number clk) by assumption.
    rewrite Hstruct. cbn [negb].
    destruct (NN.validChecksum number clk') as [[|] clk2]; reflexivity. }
  destruct (compact_bounds number Hc) as (Hn & _ & _). fold baseNumber in Hn.
  split; [| split; [| split]].
  - intros b Hb. destruct (compact_bases_forms number Hc clk' b Hb) as [-> | ->].
    + exists baseNumber. split; [reflexivity | lia].
    + exists (twoPrefixed baseNumber). split; [reflexivity |].
      apply twoPrefixed_nonneg. lia.
  - rewrite Hval, <- Hsearch.
    destruct (fst (NN.validChecksum number clk')); split; intros H;
      try reflexivity; discriminate H.
  - intros Hnone. rewrite Hval.
    destruct (fst (NN.validChecksum number clk')) eqn:E; [| reflexivity].
    exfalso. apply Hnone, Hsearch. reflexivity.
  - intros Hs Hy Hrange past19 past20.
    assert (Hne : baseNumber <> twoPrefixed baseNumber).
    { unfold twoPrefixed.
      assert (0 < 10 ^ decimalWidth baseNumber).
      { apply Z.pow_pos_nonneg; [lia |]. unfold decimalWidth. lia. }
      lia. }
    assert (Hb : bases =
                 ((if candidate (JS.TimeClip (clk' 0%nat + JS.msPerDay))
                                (decimal ("19" +:+ yy)) (decimal mm) (decimal dd)
                   then [Some baseNumber] else [])
                  ++ (if candidate (JS.TimeClip (clk' 0%nat + JS.msPerDay))
                                   (decimal ("20" +:+ yy)) (decimal mm) (decimal dd)
                      then [Some (twoPrefixed baseNumber)] else []))%list).
    { unfold bases, run. rewrite (compact_bases_standard number Hc).
      + fold yy mm dd baseNumber. unfold pastYears. cbn [fst].
        rewrite List.map_app.
        destruct (compact_century_year number Hc) as (E19 & E20 & Hyy).
        fold yy in E19, E20, Hyy. rewrite E19, E20. f_equal.
        * destruct (candidate _ _ _ _); [| reflexivity]. cbn [map].
          unfold NN.toChecksumBasis. cbn [JS.lt].
          destruct (Z.ltb_spec (1900 + decimal yy) 2000); [reflexivity | lia].
        * destruct (candidate _ _ _ _); [| reflexivity]. cbn [map].
          unfold NN.toChecksumBasis. rewrite parseInt_two_prefixed by lia.
          cbn [JS.lt].
          destruct (Z.ltb_spec (2000 + decimal yy) 2000); [lia | reflexivity].
      + unfold NN.isCompletelyUnknownDob. apply String.eqb_neq. exact Hs.
      + fold mm dd. destruct (String.eqb_spec mm "00") as [Hm | Hm];
          [destruct (String.eqb_spec dd "00") as [Hd | Hd] |]; cbn; try reflexivity.
        exfalso. apply Hy. split; assumption. }
    pose proof (candidate_pastDate (clk' 0%nat) (decimal ("19" +:+ yy)) (decimal mm)
                  (decimal dd) Hrange) as P19.
    pose proof (candidate_pastDate (clk' 0%nat) (decimal ("20" +:+ yy)) (decimal mm)
                  (decimal dd) Hrange) as P20.
    rewrite Hb. clear Hb. subst past19 past20.
    destruct (candidate _ (decimal ("19" +:+ yy)) _ _);
      destruct (candidate _ (decimal ("20" +:+ yy)) _ _); cbn [app In].
    + split; [| split]; [tauto | tauto | reflexivity].
    + split; [| split].
      * tauto.
      * split; [intros [E | []]; congruence | intros H; apply P20 in H; discriminate H].
      * intros _ H. apply P20 in H. discriminate H.
    + split; [| split].
      * split; [intros [E | []]; congruence | intros H; apply P19 in H; discriminate H].
      * tauto.
      * intros H. apply P19 in H. discriminate H.
    + split; [| split].
      * split; [intros [] | intros H; apply P19 in H; discriminate H].
      * split; [intros [] | intros H; apply P20 in H; discriminate H].
      * intros H. apply P19 in H. discriminate H.
Qed.

Lemma validate_iff_some_basis_matches_witness :
  (run (NN.validate strings.cleanUnicode_spec "00.01.01-001.05") (frozen instant_2026_11_01)
   = Return (Valid "00010100105" true false)
   <-> exists b,
         In (Some b) (run (NN.getChecksumBases "00010100105") (later (frozen instant_2026_11_01)))
         /\ checksumEquation b (decimal (substring 9 2 "00010100105")))
  /\ run (NN.getChecksumBases "00010100105") (later (frozen instant_2026_11_01))
     = [Some (decimal (substring 0 9 "00010100105"));
        Some (twoPrefixed (decimal (substring 0 9 "00010100105")))].
Proof.
  destruct (validate_iff_some_basis_matches strings.cleanUnicode_spec "00.01.01-001.05"
              "00010100105" (frozen instant_2026_11_01) (later (frozen instant_2026_11_01)))
    as (_ & Hiff & _ & Hboth).
  - reflexivity.
  - split; reflexivity.
  - reflexivity.
  - reflexivity.
  - split; [exact Hiff |]. apply Hboth.
    + discriminate.
    + intros [Hm _]. discriminate Hm.
    + unfold dayAheadInRange. vm_compute. discriminate.
    + split; vm_compute; [reflexivity | discriminate].
    + split; vm_compute; [reflexivity | discriminate].
Defined.

(** C1, the statement as written fails: 31 December of 1999 and of 2099 are
    both calendar dates and the 2-prefixed base number of 99123100197
    satisfies the checksum equation, yet on 1 November 2026 the number is
    rejected, the completion in 2099 being in the future. *)
Lemma future_century_not_tried :
  JS.isCalendarDate (decimal ("19" +:+ "99")) 12 31 = true
  /\ JS.isCalendarDate (decimal ("20" +:+ "99")) 12 31 = true
  /\ run (NN.validStructure "99123100197") (frozen instant_2026_11_01) = true
  /\ checksumEquation (twoPrefixed (decimal (substring 0 9 "99123100197")))
                      (decimal (substring 9 2 "99123100197"))
  /\ run (NN.validate strings.cleanUnicode_spec "99123100197") (frozen instant_2026_11_01)
     = Return (Invalid InvalidChecksum).
Proof. repeat split; vm_compute; reflexivity. Qed.

(** C3, the statement as written fails: the base number of 93040100196 is
    930401001, the number of its first nine digits; it is neither the
    number 1 of its digits 7 to 9 nor at most 999. *)
Lemma base_number_is_not_three_digits :
  nth 0 (NN.getBaseNumberAndChecksum "93040100196") None = Some 930401001
  /\ decimal (substring 6 3 "93040100196") = 1
  /\ ~ 930401001 <= 999.
Proof. repeat split; vm_compute; congruence. Qed.

(** C3 (as amended). The base number of a compact form is the number of
    its first nine digits, between 0 and 999999999.  For a candidate year
    before 2000 the basis is the base number unmodified.  For a candidate
    year 2000 or later and a number whose first digit is not 0, the basis
    is the decimal concatenation of the digit 2 and of the nine digits of
    the base number, that is 2000000000 plus the base number. *)
Theorem toChecksumBasis_century_rule (number : string) :
  compactForm number ->
  let firstNine := substring 0 9 number in
  let baseNumber := decimal firstNine in
  NN.getBaseNumberAndChecksum number
  = [Some baseNumber; Some (decimal (substring 9 2 number))]
  /\ 0 <= baseNumber <= 999999999
  /\ (forall year,
        year < 2000 ->
        NN.toChecksumBasis (Some year) (Some baseNumber) = Some baseNumber)
  /\ (forall year,
        2000 <= year ->
        substring 0 1 number <> "0" ->
        NN.toChecksumBasis (Some year) (Some baseNumber)
        = Some (decimal ("2" +:+ firstNine))
        /\ decimal ("2" +:+ firstNine) = 2000000000 + baseNumber).
Proof.
  intros Hc firstNine baseNumber.
  pose proof (proj1 (compact_bounds number Hc)) as Hn.
  fold firstNine baseNumber in Hn.
  split; [exact (compact_getBaseNumberAndChecksum number Hc) |].
  split; [exact Hn |].
  split.
  - intros year Hy. unfold NN.toChecksumBasis. cbn [JS.lt].
    destruct (Z.ltb_spec year 2000); [reflexivity | lia].
  - intros year Hy Hfirst.
    assert (Hnine : 100000000 <= baseNumber
                    /\ decimal ("2" +:+ firstNine) = 2000000000 + baseNumber).
    { destruct (compactForm_inv number Hc)
        as (c1 & c2 & c3 & c4 & c5 & c6 & c7 & c8 & c9 & c10 & c11 & Hnum &
            H1 & H2 & H3 & H4 & H5 & H6 & H7 & H8 & H9 & _).
      subst baseNumber firstNine. rewrite Hnum in Hfirst |- *.
      cbv beta iota zeta delta [substring] in Hfirst.
      assert (Hd1 : JS.digit_val c1 <> 0).
      { intros E. apply Hfirst. f_equal.
        unfold JS.digit_val in E.
        assert (EN : N_of_ascii c1 = 48%N) by lia.
        rewrite <- (ascii_N_embedding c1), EN. reflexivity. }
      cbv beta iota zeta delta [substring decimal String.append JS.parse_digits].
      use_digits. change (JS.isdigit "2") with true. cbv iota.
      change (JS.digit_val "2") with 2.
      apply isdigit_range in H1, H2, H3, H4, H5, H6, H7, H8, H9. lia. }
    destruct Hnine as [Hlow Hcat].
    split; [| exact Hcat].
    rewrite Hcat. unfold NN.toChecksumBasis.
    rewrite parseInt_two_prefixed by lia. cbn [JS.lt].
    destruct (Z.ltb_spec year 2000); [lia |].
    f_equal. unfold twoPrefixed.
    destruct (decimalWidth_bounds baseNumber) as [_ Hw].
    destruct Hw as [Hwl Hwu]; [lia |].
    assert (Hw0 : 0 <= decimalWidth baseNumber) by (unfold decimalWidth; lia).
    assert (Hw9 : decimalWidth baseNumber = 9).
    { destruct (Z.le_gt_cases (decimalWidth baseNumber) 8) as [Hle | Hgt].
      - assert (10 ^ decimalWidth baseNumber <= 10 ^ 8)
          by (apply Z.pow_le_mono_r; lia).
        change (10 ^ 8) with 100000000 in *. lia.
      - destruct (Z.le_gt_cases (decimalWidth baseNumber) 9) as [Hle9 | Hgt9]; [lia |].
        assert (10 ^ 9 <= 10 ^ (decimalWidth baseNumber - 1))
          by (apply Z.pow_le_mono_r; lia).
        change (10 ^ 9) with 1000000000 in *. lia. }
    rewrite Hw9. change (10 ^ 9) with 1000000000. lia.
Qed.

Lemma toChecksumBasis_century_rule_witness :
  NN.getBaseNumberAndChecksum "85073003328"
  = [Some (decimal (substring 0 9 "85073003328"));
     Some (decimal (substring 9 2 "85073003328"))]
  /\ NN.toChecksumBasis (Some 1985) (Some (decimal (substring 0 9 "85073003328")))
     = Some (decimal (substring 0 9 "85073003328"))
  /\ NN.toChecksumBasis (Some 2085) (Some (decimal (substring 0 9 "85073003328")))
     = Some (decimal ("2" +:+ substring 0 9 "85073003328")).
Proof.
  destruct (toChecksumBasis_century_rule "85073003328") as (Hb & _ & Hold & Hnew).
  - split; reflexivity.
  - split; [exact Hb |]. split.
    + apply Hold. lia.
    + apply (Hnew 2085); [lia | discriminate].
Defined.

(** C4, the statement as written fails: the eleven zeros end in ["00"] and
    pass the structure check, but they are rejected for their format, the
    value not being positive, not for their checksum. *)
Lemma all_zeros_rejected_for_format :
  compactForm "00000000000"
  /\ substring 9 2 "00000000000" = "00"
  /\ run (NN.validStructure "00000000000") (frozen instant_2026_11_01) = true
  /\ run (NN.validate strings.cleanUnicode_spec "00000000000") (frozen instant_2026_11_01)
     = Return (Invalid InvalidFormat).
Proof. repeat split. Qed.

(** C4 (as amended). A basis that is a multiple of 97 passes the checksum
    test with the checksum 97 only.  An input that cleans to eleven digits
    ending in ["00"] never validates; when its value is positive and its
    structure is valid it is rejected with [InvalidChecksum]. *)
Theorem zero_checksum_never_valid
        (cleanUnicode : string -> string -> string * option Error)
        (input number : string) (clk : Clock) :
  NN.clean cleanUnicode input = (number, None) ->
  compactForm number ->
  substring 9 2 number = "00" ->
  (forall b c, b mod 97 = 0 ->
               JS.rem_plus_eq (Some b) 97 (Some c) 97 = true <-> c = 97)
  /\ (exists e, run (NN.validate cleanUnicode input) clk = Return (Invalid e))
  /\ (0 < decimal number ->
      run (NN.validStructure number) clk = true ->
      run (NN.validate cleanUnicode input) clk = Return (Invalid InvalidChecksum)).
Proof.
  intros Hclean Hc Hzero.
  assert (Hnone : forall clk', fst (NN.validChecksum number clk') = false).
  { intros clk'. destruct (fst (NN.validChecksum number clk')) eqn:E; [| reflexivity].
    apply (validChecksum_search number clk' Hc) in E.
    destruct E as (b & _ & Heq). rewrite Hzero in Heq.
    unfold checksumEquation in Heq. change (decimal "00") with 0 in Heq.
    pose proof (Z.mod_pos_bound b 97). lia. }
  split; [| split].
  - intros b c Hb. cbn [JS.rem_plus_eq]. rewrite Z.eqb_eq.
    assert (Z.rem b 97 = 0) as ->.
    { apply Z.rem_divide; [lia |]. apply Z.mod_divide; [lia | exact Hb]. }
    lia.
  - destruct (Z.lt_ge_cases 0 (decimal number)) as [Hpos | Hle].
    + unfold run. rewrite (validate_pipeline cleanUnicode input number clk) by assumption.
      destruct (NN.validStructure number clk) as [[|] clk1]; cbn [negb].
      * specialize (Hnone clk1).
        destruct (NN.validChecksum number clk1) as [k clk2]. cbn [fst] in Hnone.
        subst k. eexists. reflexivity.
      * eexists. reflexivity.
    + exists InvalidFormat. unfold run, NN.validate.
      rewrite compact_clean, Hclean. cbn [fst snd].
      rewrite (compact_isdigits number Hc), (compact_parseInt number Hc).
      cbn [negb orb JS.le].
      destruct (Z.leb_spec (decimal number) 0); [reflexivity | lia].
  - intros Hpos Hs. unfold run in *.
    rewrite (validate_pipeline cleanUnicode input number clk) by assumption.
    destruct (NN.validStructure number clk) as [s clk1]. cbn [fst] in Hs. subst s.
    cbn [negb]. specialize (Hnone clk1).
    destruct (NN.validChecksum number clk1) as [k clk2]. cbn [fst] in Hnone.
    subst k. reflexivity.
Qed.

Lemma zero_checksum_never_valid_witness :
  run (NN.validate strings.cleanUnicode_spec "85.07.30-033 00") (frozen instant_2026_11_01)
  = Return (Invalid InvalidChecksum).
Proof.
  destruct (zero_checksum_never_valid strings.cleanUnicode_spec "85.07.30-033 00"
              "85073003300" (frozen instant_2026_11_01)) as (_ & _ & H).
  - reflexivity.
  - split; reflexivity.
  - reflexivity.
  - apply H; reflexivity.
Defined.



(** C6, the statement as written fails: the input ["0"] cleans to one
    digit, not eleven, and is rejected for its format, not its length. *)
Lemma single_zero_rejected_for_format :
  NN.clean strings.cleanUnicode_spec "0" = ("0", None)
  /\ String.length "0" <> 11%nat
  /\ forall clk, run (NN.validate strings.cleanUnicode_spec "0") clk
                 = Return (Invalid InvalidFormat).
Proof. repeat split; discriminate. Qed.

(** C6 (as amended). When the cleaned form is a non-empty string of
    digits of positive value whose length is not 11, [validate] reports
    [InvalidLength]; a cleaned form that is not made of digits, or whose
    value is not positive, is reported as [InvalidFormat] first, whatever
    its length. *)
Theorem wrong_length_after_format_check
        (cleanUnicode : string -> string -> string * option Error)
        (input number : string) (clk : Clock) :
  NN.clean cleanUnicode input = (number, None) ->
  (strings.isdigits number = true ->
   0 < decimal number ->
   String.length number <> 11%nat ->
   run (NN.validate cleanUnicode input) clk = Return (Invalid InvalidLength))
  /\ (strings.isdigits number = false \/ decimal number <= 0 ->
      run (NN.validate cleanUnicode input) clk = Return (Invalid InvalidFormat)).
Proof.
  intros Hclean.
  assert (Hparse : strings.isdigits number = true ->
                   JS.parseInt number = Some (decimal number)).
  { unfold strings.isdigits, JS.all_digits, JS.parseInt.
    destruct number as [| c r]; [discriminate |].
    cbn [String.eqb negb andb list_ascii_of_string forallb].
    intros H. apply andb_true_iff in H. destruct H as [-> _]. reflexivity. }
  unfold run, NN.validate. rewrite compact_clean, Hclean. cbn [fst snd].
  split.
  - intros Hd Hpos Hlen. rewrite (Hparse Hd), Hd. cbn [negb orb JS.le].
    destruct (Z.leb_spec (decimal number) 0); [lia |].
    destruct (Nat.eqb_spec (String.length number) 11); [contradiction | reflexivity].
  - intros [Hd | Hle].
    + rewrite Hd. reflexivity.
    + destruct (strings.isdigits number) eqn:Hd; [| reflexivity].
      rewrite (Hparse eq_refl). cbn [negb orb JS.le].
      destruct (Z.leb_spec (decimal number) 0); [reflexivity | lia].
Qed.

Lemma wrong_length_after_format_check_witness :
  run (NN.validate strings.cleanUnicode_spec "85.07.30-033") (frozen instant_2026_11_01)
  = Return (Invalid InvalidLength)
  /\ run (NN.validate strings.cleanUnicode_spec "000") (frozen instant_2026_11_01)
     = Return (Invalid InvalidFormat).
Proof.
  split.
  - apply (wrong_length_after_format_check strings.cleanUnicode_spec "85.07.30-033"
             "850730033" (frozen instant_2026_11_01)).
    + reflexivity.
    + reflexivity.
    + reflexivity.
    + discriminate.
  - apply (wrong_length_after_format_check strings.cleanUnicode_spec "000"
             "000" (frozen instant_2026_11_01)).
    + reflexivity.
    + right. discriminate.
Defined.

(** C9. For a compact form [c], a string of exactly eleven ASCII digits,
    [compact (format c)] is [c], under the cleaning helper of the spec. *)
Theorem compact_format_roundtrip (c : string) :
  compactForm c ->
  NN.compact strings.cleanUnicode_spec (NN.format strings.cleanUnicode_spec c) = Return c.
Proof.
  intros [_ Hd].
  assert (Hclean : forall s, JS.all_digits s = true ->
                             strings.cleanUnicode_spec s " -." = (s, None)).
  { clear. intros s Hs. unfold strings.cleanUnicode_spec.
    change (list_ascii_of_string " -.") with [" "; "-"; "."]%char.
    assert (Hkeep : List.filter
                      (fun c => negb (existsb (Ascii.eqb c) [" "; "-"; "."]%char))
                      (list_ascii_of_string s) = list_ascii_of_string s).
    { unfold JS.all_digits in Hs.
      induction (list_ascii_of_string s) as [| a l IH]; [reflexivity |].
      cbn [forallb] in Hs. apply andb_true_iff in Hs. destruct Hs as [Ha Hl].
      assert (Hne : existsb (Ascii.eqb a) [" "; "-"; "."]%char = false).
      { cbn [existsb].
        destruct (Ascii.eqb_spec a " ") as [-> | _]; [discriminate Ha |].
        destruct (Ascii.eqb_spec a "-") as [-> | _]; [discriminate Ha |].
        destruct (Ascii.eqb_spec a ".") as [-> | _]; [discriminate Ha |].
        reflexivity. }
      cbn [List.filter]. rewrite Hne. cbn [negb]. rewrite (IH Hl). reflexivity. }
    rewrite Hkeep, string_of_list_ascii_of_string. reflexivity. }
  unfold NN.compact, NN.format, NN.clean.
  rewrite (Hclean c Hd), (Hclean c Hd). reflexivity.
Qed.

Lemma compact_format_roundtrip_witness :
  NN.compact strings.cleanUnicode_spec (NN.format strings.cleanUnicode_spec "85073003328")
  = Return "85073003328".
Proof. apply compact_format_roundtrip. split; reflexivity. Defined.

Lemma yearHasStarted_eq year clk :
  NN.yearHasStarted year clk
  = (JS.Date_le (JS.Date_parse (JS.Number_toString year))
                (JS.TimeClip (clk 0%nat + JS.msPerDay)),
     later clk).
Proof. reflexivity. Qed.

Lemma Date_le_in_range t now :
  dayAheadInRange now ->
  t <= now + JS.msPerDay ->
  JS.Date_le (Some t) (JS.TimeClip (now + JS.msPerDay)) = true.
Proof.
  unfold dayAheadInRange, JS.TimeClip. intros Hr Ht.
  destruct (Z.leb_spec (Z.abs (now + JS.msPerDay)) 8640000000000000); [| lia].
  cbn [JS.Date_le JS.le]. apply Z.leb_le. exact Ht.
Qed.

(** C10. The first six digits ["000000"] are not the sentinel ["000001"]
    but pass the structure check by the year-only-known branch; once the
    years 1900 and 2000 have started for the clock, they give exactly two
    bases, the base number and its 2-prefixed form, and the number
    validates as soon as one of them satisfies the checksum equation. *)
Theorem all_zero_first_six_two_bases
        (cleanUnicode : string -> string -> string * option Error)
        (input number : string) (clk : Clock) :
  NN.clean cleanUnicode input = (number, None) ->
  compactForm number ->
  substring 0 6 number = "000000" ->
  dayAheadInRange (clk 0%nat) ->
  dayAheadInRange (clk 1%nat) ->
  JS.utcMidnight 1900 1 1 <= clk 0%nat + JS.msPerDay ->
  JS.utcMidnight 2000 1 1 <= clk 1%nat + JS.msPerDay ->
  let baseNumber := decimal (substring 0 9 number) in
  let checksum := decimal (substring 9 2 number) in
  NN.isCompletelyUnknownDob (NN.getFirstSix number) = false
  /\ NN.isDobWithOnlyYearKnown (NN.getFirstSix number) = true
  /\ (forall clk0, NN.validStructure number clk0 = (true, clk0))
  /\ run (NN.getChecksumBases number) clk
     = [Some baseNumber; Some (twoPrefixed baseNumber)]
  /\ (checksumEquation baseNumber checksum
      \/ checksumEquation (twoPrefixed baseNumber) checksum ->
      run (NN.validate cleanUnicode input) clk = Return (Valid number true false)).
Proof.
  intros Hclean Hc Hfs Hr0 Hr1 H1900 H2000 baseNumber checksum.
  pose proof (compact_getFirstSix number Hc) as Hsix. cbv zeta in Hsix.
  rewrite Hfs in Hsix.
  destruct (compact_bounds number Hc) as (Hn & Hck & Hdec).
  fold baseNumber in Hn, Hdec. fold checksum in Hck, Hdec.
  assert (Hstruct : forall clk0, NN.validStructure number clk0 = (true, clk0)).
  { intros clk0. unfold NN.validStructure. rewrite Hsix. reflexivity. }
  assert (Hbases : run (NN.getChecksumBases number) clk
                   = [Some baseNumber; Some (twoPrefixed baseNumber)]).
  { unfold run, NN.getChecksumBases.
    rewrite Hsix, (compact_getBaseNumberAndChecksum number Hc).
    fold baseNumber. cbn [nth].
    change (NN.isCompletelyUnknownDob "000000") with false.
    change (NN.isDobWithOnlyYearKnown "000000") with true. cbv iota.
    unfold NN.getBaseNumbersForOnlyYearKnown.
    change (map (fun prefix => JS.parseInt (prefix +:+ JS.item (NN.toDateArray "000000") 0))
                ["19"; "20"])
      with [Some 1900; Some 2000].
    cbn [filterM]. unfold bind. rewrite !yearHasStarted_eq.
    change (JS.Date_parse (JS.Number_toString (Some 1900)))
      with (Some (JS.utcMidnight 1900 1 1)).
    change (JS.Date_parse (JS.Number_toString (Some 2000)))
      with (Some (JS.utcMidnight 2000 1 1)).
    rewrite (Date_le_in_range _ _ Hr0 H1900).
    change (later clk 0%nat) with (clk 1%nat).
    rewrite (Date_le_in_range _ _ Hr1 H2000).
    cbn [ret fst map]. unfold NN.toChecksumBasis.
    rewrite parseInt_two_prefixed by lia. reflexivity. }
  split; [rewrite Hsix; reflexivity |].
  split; [rewrite Hsix; reflexivity |].
  split; [exact Hstruct |].
  split; [exact Hbases |].
  intros Heq.
  assert (Hpos : 0 < decimal number).
  { unfold checksumEquation in Heq.
    pose proof (Z.mod_pos_bound baseNumber 97).
    pose proof (Z.mod_pos_bound (twoPrefixed baseNumber) 97). lia. }
  unfold run. rewrite (validate_pipeline cleanUnicode input number clk) by assumption.
  rewrite Hstruct. cbn [negb].
  assert (Hok : fst (NN.validChecksum number clk) = true).
  { apply (validChecksum_search number clk Hc).
    change (fst (NN.getChecksumBases number clk)) with (run (NN.getChecksumBases number) clk).
    rewrite Hbases. fold checksum.
    destruct Heq as [Heq | Heq]; eexists; (split; [| exact Heq]); cbn; auto. }
  destruct (NN.validChecksum number clk) as [k clk2]. cbn [fst] in Hok. subst k.
  reflexivity.
Qed.

Lemma all_zero_first_six_two_bases_witness :
  run (NN.getChecksumBases "00000000176") (frozen instant_2026_11_01)
  = [Some (decimal (substring 0 9 "00000000176"));
     Some (twoPrefixed (decimal (substring 0 9 "00000000176")))]
  /\ run (NN.validate strings.cleanUnicode_spec "000000-001.76") (frozen instant_2026_11_01)
     = Return (Valid "00000000176" true false).
Proof.
  destruct (all_zero_first_six_two_bases strings.cleanUnicode_spec "000000-001.76"
              "00000000176" (frozen instant_2026_11_01)) as (_ & _ & _ & Hb & Hv).
  - reflexivity.
  - split; reflexivity.
  - reflexivity.
  - unfold dayAheadInRange. vm_compute. discriminate.
  - unfold dayAheadInRange. vm_compute. discriminate.
  - vm_compute. discriminate.
  - vm_compute. discriminate.
  - split; [exact Hb |]. apply Hv. right. reflexivity.
Defined.

(** C7 (as amended). [validate] takes the input only and reads the system
    clock by itself, at most twice in a call: its result is determined by
    the input and by the first two readings.  In particular it is the
    same on two clocks that show one same instant at every reading. *)
Theorem validate_determined_by_two_readings
        (cleanUnicode : string -> string -> string * option Error)
        (input : string) (clk1 clk2 : Clock) :
  (clk1 0%nat = clk2 0%nat ->
   clk1 1%nat = clk2 1%nat ->
   run (NN.validate cleanUnicode input) clk1 = run (NN.validate cleanUnicode input) clk2)
  /\ (forall now,
        (forall k, clk1 k = now) ->
        run (NN.validate cleanUnicode input) clk1
        = run (NN.validate cleanUnicode input) (frozen now)).
Proof.
  assert (Hmain : forall clkA clkB : Clock,
             clkA 0%nat = clkB 0%nat -> clkA 1%nat = clkB 1%nat ->
             run (NN.validate cleanUnicode input) clkA
             = run (NN.validate cleanUnicode input) clkB).
  { intros clkA clkB H0 H1. unfold run, NN.validate.
    destruct (NN.compact cleanUnicode input) as [number | e]; [| reflexivity].
    destruct (negb (strings.isdigits number) || JS.le (JS.parseInt number) (Some 0))%bool;
      [reflexivity |].
    destruct (negb (String.length number =? 11)%nat); [reflexivity |].
    unfold bind, NN.validStructure, NN.isValidFirstSix, NN.validChecksum, bind,
      NN.getChecksumBases.
    destruct (NN.isCompletelyUnknownDob (NN.getFirstSix number)) eqn:Es.
    { cbv beta iota zeta delta [orb ret fst negb].
      destruct (existsb _ _); reflexivity. }
    destruct (NN.isDobWithOnlyYearKnown (NN.getFirstSix number)) eqn:Ey; cbn [orb].
    - cbv beta iota zeta delta
          [ret bind fst negb NN.getBaseNumbersForOnlyYearKnown filterM map
           NN.yearHasStarted NN.getApproximatelyNow Date_now].
      rewrite H0, H1.
      repeat match goal with
             | |- context [if ?b then _ else _] => destruct b
             end; reflexivity.
    - cbv beta iota zeta delta
          [ret bind fst NN.isValidDob NN.getValidPastDates
           NN.getChecksumBasesForStandardDate NN.getApproximatelyNow Date_now].
      rewrite H0.
      destruct (negb (negb _)); [reflexivity |].
      cbv beta iota. rewrite H1.
      destruct (negb _); reflexivity. }
  split; [apply Hmain |].
  intros now Hnow. apply Hmain; rewrite Hnow; reflexivity.
Qed.

Lemma validate_determined_by_two_readings_witness :
  run (NN.validate strings.cleanUnicode_spec "26000000189")
      (fun k => match k with
                | O => instant_2026_11_01
                | S O => instant_2026_11_01
                | _ => 0
                end)
  = run (NN.validate strings.cleanUnicode_spec "26000000189") (frozen instant_2026_11_01).
Proof.
  apply (proj1 (validate_determined_by_two_readings strings.cleanUnicode_spec
                  "26000000189" _ _)); reflexivity.
Defined.

(** C7, the statement as written fails: no instant is passed to
    [validate], which reads the clock where it needs it.  Two calls on the
    same input that start at the same instant, one millisecond before
    31 December 2025, differ when the clock ticks between the two
    readings of one of them. *)
Lemma validate_depends_on_hidden_clock :
  let start := 1767139199999 in
  let ticking : Clock := fun k => match k with O => start | _ => start + 1 end in
  ticking 0%nat = frozen start 0%nat
  /\ run (NN.validate strings.cleanUnicode_spec "26000000189") ticking
     = Return (Valid "26000000189" true false)
  /\ run (NN.validate strings.cleanUnicode_spec "26000000189") (frozen start)
     = Return (Invalid InvalidChecksum).
Proof. repeat split; vm_compute; reflexivity. Qed.

(** * Properties of the registry *)

Lemma existsb_Permutation {A} (f : A -> bool) (l l' : list A) :
  Permutation l l' -> existsb f l = existsb f l'.
Proof.
  induction 1 as [| x l l' _ IH | x y l | l l' l'' _ IH1 _ IH2]; cbn.
  - reflexivity.
  - rewrite IH. reflexivity.
  - destruct (f x), (f y); reflexivity.
  - rewrite IH1. exact IH2.
Qed.

(** C8. Person validation by country answers [{ checked: false }] when no
    list, or an empty list, is registered for the upper-cased country
    code, as for ["ZZ"]; otherwise it answers [checked: true] with
    [isValid] true exactly when one validator of the list accepts the
    value, and that answer does not change when the list is registered in
    another order. *)
Theorem validatePerson_verdict
        (toLocaleUpperCase : string -> string)
        (lib : string -> string -> Registry.Validator)
        (country value : string) :
  let code := toLocaleUpperCase country in
  let table := Registry.personValidators lib in
  let unchecked := {| Registry.isValid := None; Registry.checked := false |} in
  (code = "ZZ" ->
   Registry.validatePerson toLocaleUpperCase lib country value = unchecked)
  /\ (table !! code = None \/ table !! code = Some [] ->
      Registry.validatePerson toLocaleUpperCase lib country value = unchecked)
  /\ (forall vset,
        table !! code = Some vset ->
        vset <> [] ->
        exists b,
          Registry.validatePerson toLocaleUpperCase lib country value
          = {| Registry.isValid := Some b; Registry.checked := true |}
          /\ (b = true <->
              exists grp, In grp vset /\ isValid (Registry.validate grp value) = true)
          /\ forall vset',
               Permutation vset vset' ->
               Registry.validateWith toLocaleUpperCase (<[code := vset']> table) country value
               = Registry.validatePerson toLocaleUpperCase lib country value).
Proof.
  intros code table unchecked.
  unfold Registry.validatePerson, Registry.validateWith. fold code table.
  split.
  { intros ->. replace (table !! "ZZ") with (@None (list Registry.Validator));
      [reflexivity | vm_compute; reflexivity]. }
  split.
  - intros [-> | ->]; reflexivity.
  - intros vset Hlook Hne. rewrite Hlook.
    destruct vset as [| grp vset]; [contradiction |]. cbn [length Nat.eqb].
    eexists. split; [reflexivity |]. split.
    + rewrite existsb_exists. unfold Registry.accepts. reflexivity.
    + intros vset' Hperm. rewrite lookup_insert_eq.
      destruct vset' as [| grp' vset'].
      { apply Permutation_sym, Permutation_nil in Hperm. discriminate Hperm. }
      cbn [length Nat.eqb].
      rewrite (existsb_Permutation _ _ _ Hperm). reflexivity.
Qed.

Lemma validatePerson_verdict_witness :
  Registry.validatePerson Registry.upperASCII Registry.sampleLib "zz" "12345678"
  = {| Registry.isValid := None; Registry.checked := false |}
  /\ Registry.validateWith Registry.upperASCII
       (<["ES" := [Registry.sampleLib "ES" "nie"; Registry.sampleLib "ES" "dni"]]>
          (Registry.personValidators Registry.sampleLib)) "es" "12345678"
     = Registry.validatePerson Registry.upperASCII Registry.sampleLib "es" "12345678".
Proof.
  split.
  - destruct (validatePerson_verdict Registry.upperASCII Registry.sampleLib "zz" "12345678")
      as (Hzz & _ & _).
    apply Hzz. reflexivity.
  - destruct (validatePerson_verdict Registry.upperASCII Registry.sampleLib "es" "12345678")
      as (_ & _ & Hcheck).
    destruct (Hcheck [Registry.sampleLib "ES" "dni"; Registry.sampleLib "ES" "nie"])
      as (b & _ & _ & Hperm).
    + vm_compute. reflexivity.
    + discriminate.
    + apply Hperm. apply perm_swap.
Defined.


(** * Further properties of the validator *)

Lemma Date_parse_year y :
  1900 <= y <= 2099 ->
  JS.Date_parse (JS.Number_toString (Some y)) = Some (JS.utcMidnight y 1 1).
Proof.
  intros Hy.
  assert (Hall : yearsParse (map (fun k => 1900 + Z.of_nat k) (seq 0 200)) = true)
    by (vm_compute; reflexivity).
  unfold yearsParse in Hall. rewrite forallb_forall in Hall.
  specialize (Hall y).
  destruct (JS.Date_parse (JS.Number_toString (Some y))) as [t |].
  - f_equal. apply Z.eqb_eq, Hall, in_map_iff.
    exists (Z.to_nat (y - 1900)). split; [lia | apply in_seq; lia].
  - discriminate Hall. apply in_map_iff.
    exists (Z.to_nat (y - 1900)). split; [lia | apply in_seq; lia].
Qed.

Lemma Date_le_started year approximatelyNow :
  1900 <= year <= 2099 ->
  JS.Date_le (JS.Date_parse (JS.Number_toString (Some year))) approximatelyNow
  = started approximatelyNow year.
Proof. intros Hy. rewrite Date_parse_year by exact Hy. reflexivity. Qed.

(** The bases of a number whose month and day digits are zeros. *)
Lemma compact_bases_yearOnly number clk :
  compactForm number ->
  substring 2 2 number = "00" ->
  substring 4 2 number = "00" ->
  NN.getChecksumBases number clk =
  (basesWhen (started (JS.TimeClip (clk 0%nat + JS.msPerDay))
                      (1900 + decimal (substring 0 2 number)))
             (started (JS.TimeClip (clk 1%nat + JS.msPerDay))
                      (2000 + decimal (substring 0 2 number)))
             (decimal (substring 0 9 number)),
   later (later clk)).
Proof.
  intros Hc Hm Hd.
  destruct (compact_century_year number Hc) as (E19 & E20 & Hyy).
  pose proof (compact_yearOnly number Hc) as Hyo. cbv zeta in Hyo.
  rewrite Hm, Hd in Hyo.
  change (NN.isDobWithOnlyYearKnown (substring 0 6 number) = true) in Hyo.
  assert (Hs : NN.isCompletelyUnknownDob (substring 0 6 number) = false).
  { destruct (compactForm_inv number Hc)
      as (c1 & c2 & c3 & c4 & c5 & c6 & c7 & c8 & c9 & c10 & c11 & Hn & _).
    rewrite Hn in Hd |- *. unfold NN.isCompletelyUnknownDob.
    apply String.eqb_neq. intros E.
    cbv beta iota zeta delta [substring] in Hd, E. congruence. }
  assert (Hyears : map (fun prefix =>
                          JS.parseInt (prefix +:+ JS.item (NN.toDateArray (substring 0 6 number)) 0))
                       ["19"; "20"]
                   = [Some (decimal ("19" +:+ substring 0 2 number));
                      Some (decimal ("20" +:+ substring 0 2 number))]).
  { destruct (compactForm_inv number Hc)
      as (c1 & c2 & c3 & c4 & c5 & c6 & c7 & c8 & c9 & c10 & c11 & Hn & H1 & H2 & _).
    rewrite Hn. reflexivity. }
  unfold NN.getChecksumBases.
  rewrite (compact_getFirstSix number Hc), (compact_getBaseNumberAndChecksum number Hc).
  cbv zeta. rewrite Hs, Hyo. cbn [andb nth].
  unfold NN.getBaseNumbersForOnlyYearKnown. rewrite Hyears, E19, E20.
  cbn [filterM]. unfold bind. cbv beta. rewrite !yearHasStarted_eq.
  rewrite !Date_le_started by lia.
  change (later clk 0%nat) with (clk 1%nat).
  unfold basesWhen, ret.
  destruct (started _ (1900 + _)); destruct (started _ (2000 + _));
    cbn [map app]; unfold NN.toChecksumBasis; cbn [JS.lt];
    rewrite ?parseInt_two_prefixed by apply (compact_bounds number Hc);
    repeat match goal with
           | |- context [?a <? 2000] => destruct (Z.ltb_spec a 2000); try lia
           end; reflexivity.
Qed.

Lemma pastYears_bases approximatelyNow number :
  compactForm number ->
  map (fun year => NN.toChecksumBasis year (Some (decimal (substring 0 9 number))))
      (pastYears approximatelyNow (substring 0 2 number) (substring 2 2 number)
                 (substring 4 2 number))
  = basesWhen (candidate approximatelyNow (1900 + decimal (substring 0 2 number))
                         (decimal (substring 2 2 number)) (decimal (substring 4 2 number)))
              (candidate approximatelyNow (2000 + decimal (substring 0 2 number))
                         (decimal (substring 2 2 number)) (decimal (substring 4 2 number)))
              (decimal (substring 0 9 number)).
Proof.
  intros Hc. destruct (compact_century_year number Hc) as (E19 & E20 & Hyy).
  cbv zeta in E19, E20, Hyy.
  destruct (compact_bounds number Hc) as (Hn & _ & _). cbv zeta in Hn.
  unfold pastYears, basesWhen. rewrite List.map_app, E19, E20. f_equal.
  - destruct (candidate _ _ _ _); [| reflexivity]. cbn [map].
    unfold NN.toChecksumBasis. cbn [JS.lt].
    destruct (Z.ltb_spec (1900 + decimal (substring 0 2 number)) 2000); [reflexivity | lia].
  - destruct (candidate _ _ _ _); [| reflexivity]. cbn [map].
    unfold NN.toChecksumBasis. rewrite parseInt_two_prefixed by lia. cbn [JS.lt].
    destruct (Z.ltb_spec (2000 + decimal (substring 0 2 number)) 2000); [lia | reflexivity].
Qed.

(** The bases [getChecksumBases] returns, in every case. *)
Lemma compact_bases_explicit number clk :
  compactForm number ->
  fst (NN.getChecksumBases number clk) = basesOn number (clk 0%nat) (clk 1%nat).
Proof.
  intros Hc. unfold basesOn.
  destruct (String.eqb (substring 0 6 number) "000001") eqn:Hs.
  - unfold NN.getChecksumBases.
    rewrite (compact_getFirstSix number Hc), (compact_getBaseNumberAndChecksum number Hc).
    cbv zeta. unfold NN.isCompletelyUnknownDob. rewrite Hs. reflexivity.
  - destruct (String.eqb_spec (substring 2 2 number) "00") as [Hm | Hm];
      [destruct (String.eqb_spec (substring 4 2 number) "00") as [Hd | Hd] |];
      cbn [andb].
    + rewrite (compact_bases_yearOnly number clk Hc Hm Hd). reflexivity.
    + rewrite (compact_bases_standard number Hc clk Hs).
      * cbn [fst]. apply pastYears_bases. exact Hc.
      * rewrite Hm. apply andb_false_iff. right. apply String.eqb_neq. exact Hd.
    + rewrite (compact_bases_standard number Hc clk Hs).
      * cbn [fst]. apply pastYears_bases. exact Hc.
      * apply andb_false_iff. left. apply String.eqb_neq. exact Hm.
Qed.

Lemma started_in_range t year :
  dayAheadInRange t ->
  started (JS.TimeClip (t + JS.msPerDay)) year = true
  <-> JS.utcMidnight year 1 1 <= t + JS.msPerDay.
Proof.
  unfold dayAheadInRange, started, JS.TimeClip. intros Hr.
  destruct (Z.leb_spec (Z.abs (t + JS.msPerDay)) 8640000000000000); [| lia].
  cbn [JS.Date_le JS.le]. apply Z.leb_le.
Qed.

(** The test of [validChecksum] on a list of bases of the two forms. *)
Lemma existsb_basesWhen b19 b20 n k :
  0 <= n ->
  existsb (fun csb => JS.rem_plus_eq csb 97 (Some k) 97) (basesWhen b19 b20 n) = true
  <-> (b19 = true /\ checksumEquation n k)
      \/ (b20 = true /\ checksumEquation (twoPrefixed n) k).
Proof.
  intros Hn. pose proof (twoPrefixed_nonneg n Hn) as H2.
  unfold basesWhen, checksumEquation.
  destruct b19, b20; cbn [app existsb JS.rem_plus_eq orb];
    rewrite ?orb_true_iff, ?orb_false_r, ?Z.eqb_eq, ?Z.rem_mod_nonneg by lia;
    intuition discriminate.
Qed.

(** X1. The sentinel ["000001"]: the structure check and the single basis
    need no clock reading; the base number is 1000 plus the number of the
    digits 7 to 9, and the result of [validate] is decided by the digits
    alone. *)
Theorem unknown_date_needs_no_clock
        (cleanUnicode : string -> string -> string * option Error)
        (input number : string) (clk : Clock) :
  NN.clean cleanUnicode input = (number, None) ->
  compactForm number ->
  substring 0 6 number = "000001" ->
  let n := decimal (substring 0 9 number) in
  let k := decimal (substring 9 2 number) in
  n = 1000 + decimal (substring 6 3 number)
  /\ NN.validStructure number clk = (true, clk)
  /\ NN.getChecksumBases number clk = ([Some n], clk)
  /\ run (NN.validate cleanUnicode input) clk
     = if n mod 97 + k =? 97
       then Return (Valid number true false)
       else Return (Invalid InvalidChecksum).
Proof.
  intros Hclean Hc Hfs n k.
  assert (Hn : n = 1000 + decimal (substring 6 3 number)
               /\ 0 <= decimal (substring 6 3 number)).
  { destruct (compactForm_inv number Hc)
      as (c1 & c2 & c3 & c4 & c5 & c6 & c7 & c8 & c9 & c10 & c11 & Hnum &
          H1 & H2 & H3 & H4 & H5 & H6 & H7 & H8 & H9 & _).
    subst n. rewrite Hnum in Hfs |- *.
    cbv beta iota zeta delta [substring] in Hfs.
    injection Hfs as -> -> -> -> -> ->.
    cbv beta iota zeta delta [substring decimal JS.parse_digits].
    use_digits. change (JS.isdigit "0") with true. change (JS.isdigit "1") with true.
    cbv iota. change (JS.digit_val "0") with 0. change (JS.digit_val "1") with 1.
    apply isdigit_range in H7, H8, H9. lia. }
  destruct Hn as [Hn Hseq].
  destruct (compact_bounds number Hc) as (_ & Hk & Hdec). fold n in Hdec. fold k in Hk, Hdec.
  assert (Hstruct : NN.validStructure number clk = (true, clk)).
  { rewrite (compact_validStructure number Hc). unfold NN.isCompletelyUnknownDob.
    rewrite Hfs. reflexivity. }
  assert (Hbases : NN.getChecksumBases number clk = ([Some n], clk)).
  { unfold NN.getChecksumBases.
    rewrite (compact_getFirstSix number Hc), (compact_getBaseNumberAndChecksum number Hc).
    cbv zeta. rewrite Hfs. reflexivity. }
  split; [exact Hn |]. split; [exact Hstruct |]. split; [exact Hbases |].
  unfold run. rewrite (validate_pipeline cleanUnicode input number clk Hclean Hc) by lia.
  rewrite Hstruct. cbn [negb]. unfold NN.validChecksum, bind. rewrite Hbases.
  rewrite (compact_getBaseNumberAndChecksum number Hc). fold k.
  cbn [nth ret existsb JS.rem_plus_eq orb]. rewrite orb_false_r.
  rewrite Z.rem_mod_nonneg by lia.
  destruct (n mod 97 + k =? 97); reflexivity.
Qed.

Lemma unknown_date_needs_no_clock_witness :
  run (NN.validate strings.cleanUnicode_spec "00.00.01-003-64") (frozen 0)
  = Return (Valid "00000100364" true false).
Proof.
  destruct (unknown_date_needs_no_clock strings.cleanUnicode_spec "00.00.01-003-64"
              "00000100364" (frozen 0)) as (_ & _ & _ & H).
  - reflexivity.
  - split; reflexivity.
  - reflexivity.
  - exact H.
Defined.

(** X2. A date of which only the year is known (month and day digits
    ["00"]): the structure check passes without a clock reading, whatever
    the year; the base number is tried when 1 January 19yy is not later
    than the first reading plus one day, its 2-prefixed form when
    1 January 20yy is not later than the second reading plus one day, and
    [validate] accepts exactly when one of the tried bases satisfies the
    checksum equation, reporting [InvalidChecksum] otherwise. *)
Theorem year_only_date_bases
        (cleanUnicode : string -> string -> string * option Error)
        (input number : string) (clk : Clock) :
  NN.clean cleanUnicode input = (number, None) ->
  compactForm number ->
  0 < decimal number ->
  substring 2 2 number = "00" ->
  substring 4 2 number = "00" ->
  dayAheadInRange (clk 0%nat) ->
  dayAheadInRange (clk 1%nat) ->
  let yy := decimal (substring 0 2 number) in
  let n := decimal (substring 0 9 number) in
  let k := decimal (substring 9 2 number) in
  let started19 := JS.utcMidnight (1900 + yy) 1 1 <= clk 0%nat + JS.msPerDay in
  let started20 := JS.utcMidnight (2000 + yy) 1 1 <= clk 1%nat + JS.msPerDay in
  NN.validStructure number clk = (true, clk)
  /\ (In (Some n) (run (NN.getChecksumBases number) clk) <-> started19)
  /\ (In (Some (twoPrefixed n)) (run (NN.getChecksumBases number) clk) <-> started20)
  /\ (run (NN.validate cleanUnicode input) clk = Return (Valid number true false) <->
      (started19 /\ checksumEquation n k) \/ (started20 /\ checksumEquation (twoPrefixed n) k))
  /\ (run (NN.validate cleanUnicode input) clk = Return (Valid number true false)
      \/ run (NN.validate cleanUnicode input) clk = Return (Invalid InvalidChecksum)).
Proof.
  intros Hclean Hc Hpos Hm Hd Hr0 Hr1 yy n k started19 started20.
  destruct (compact_bounds number Hc) as (Hn & _ & _). fold n in Hn.
  assert (Hne : n <> twoPrefixed n).
  { unfold twoPrefixed.
    assert (0 < 10 ^ decimalWidth n)
      by (apply Z.pow_pos_nonneg; [lia | unfold decimalWidth; lia]).
    lia. }
  assert (Hstruct : NN.validStructure number clk = (true, clk)).
  { rewrite (compact_validStructure number Hc), Hm, Hd.
    cbn [String.eqb Ascii.eqb Bool.eqb andb orb]. rewrite orb_true_r. reflexivity. }
  pose proof (compact_bases_yearOnly number clk Hc Hm Hd) as Hbases.
  fold yy n in Hbases.
  pose proof (started_in_range (clk 0%nat) (1900 + yy) Hr0) as S19.
  pose proof (started_in_range (clk 1%nat) (2000 + yy) Hr1) as S20.
  fold started19 in S19. fold started20 in S20.
  assert (Hval : run (NN.validate cleanUnicode input) clk =
                 if existsb (fun csb => JS.rem_plus_eq csb 97 (Some k) 97)
                            (fst (NN.getChecksumBases number clk))
                 then Return (Valid number true false)
                 else Return (Invalid InvalidChecksum)).
  { unfold run. rewrite (validate_pipeline cleanUnicode input number clk) by assumption.
    rewrite Hstruct. cbn [negb]. unfold NN.validChecksum, bind.
    rewrite (compact_getBaseNumberAndChecksum number Hc). fold k.
    destruct (NN.getChecksumBases number clk) as [bases clk2]. cbn [nth ret fst].
    destruct (existsb _ bases); reflexivity. }
  split; [exact Hstruct |].
  unfold run at 1 2. rewrite Hbases. cbn [fst].
  split; [| split; [| split]].
  - rewrite <- S19. unfold basesWhen.
    destruct (started _ (1900 + yy)); destruct (started _ (2000 + yy)); cbn [app In];
      intuition congruence.
  - rewrite <- S20. unfold basesWhen.
    destruct (started _ (1900 + yy)); destruct (started _ (2000 + yy)); cbn [app In];
      intuition congruence.
  - rewrite Hval, Hbases. cbn [fst]. rewrite <- S19, <- S20.
    rewrite <- (existsb_basesWhen _ _ n k) by lia.
    set (found := existsb _ _). destruct found; split; intros H;
      first [reflexivity | discriminate H].
  - rewrite Hval. destruct (existsb _ _); [left | right]; reflexivity.
Qed.

Lemma year_only_date_bases_witness :
  run (NN.validate strings.cleanUnicode_spec "99.00.00-001.41") (frozen instant_2026_11_01)
  = Return (Valid "99000000141" true false)
  /\ ~ In (Some (twoPrefixed (decimal (substring 0 9 "99000000141"))))
          (run (NN.getChecksumBases "99000000141") (frozen instant_2026_11_01)).
Proof.
  destruct (year_only_date_bases strings.cleanUnicode_spec "99.00.00-001.41"
              "99000000141" (frozen instant_2026_11_01)) as (_ & _ & H20 & Hv & _).
  - reflexivity.
  - split; reflexivity.
  - reflexivity.
  - reflexivity.
  - reflexivity.
  - unfold dayAheadInRange. vm_compute. discriminate.
  - unfold dayAheadInRange. vm_compute. discriminate.
  - split.
    + apply Hv. left. split; [vm_compute; discriminate | reflexivity].
    + intros Hin. apply H20 in Hin. vm_compute in Hin. apply Hin. reflexivity.
Defined.

Lemma isdigits_compactForm number :
  strings.isdigits number = true ->
  String.length number = 11%nat ->
  compactForm number.
Proof.
  unfold strings.isdigits, compactForm. intros Hd Hlen.
  apply andb_true_iff in Hd. destruct Hd as [_ Hd]. split; assumption.
Qed.

Lemma isdigits_parseInt number :
  strings.isdigits number = true -> JS.parseInt number = Some (decimal number).
Proof.
  unfold strings.isdigits, JS.all_digits, JS.parseInt.
  destruct number as [| c r]; [discriminate |].
  cbn [String.eqb negb andb list_ascii_of_string forallb].
  intros H. apply andb_true_iff in H. destruct H as [-> _]. reflexivity.
Qed.

(** What the stages before the structure check let through. *)
Lemma validate_stage_A
      (cleanUnicode : string -> string -> string * option Error)
      (input number : string) (clk : Clock) :
  NN.clean cleanUnicode input = (number, None) ->
  run (NN.validate cleanUnicode input) clk =
  if strings.isdigits number
  then if 0 <? decimal number
       then if (String.length number =? 11)%nat
            then run (NN.validate cleanUnicode input) clk
            else Return (Invalid InvalidLength)
       else Return (Invalid InvalidFormat)
  else Return (Invalid InvalidFormat).
Proof.
  intros Hclean.
  destruct (strings.isdigits number) eqn:Hd.
  - destruct (Z.ltb_spec 0 (decimal number)) as [Hpos | Hle].
    + destruct (Nat.eqb_spec (String.length number) 11) as [Hlen | Hlen]; [reflexivity |].
      unfold run, NN.validate. rewrite compact_clean, Hclean. cbn [fst snd].
      rewrite Hd, (isdigits_parseInt number Hd). cbn [negb orb JS.le].
      destruct (Z.leb_spec (decimal number) 0); [lia |].
      destruct (Nat.eqb_spec (String.length number) 11); [contradiction | reflexivity].
    + unfold run, NN.validate. rewrite compact_clean, Hclean. cbn [fst snd].
      rewrite Hd, (isdigits_parseInt number Hd). cbn [negb orb JS.le].
      destruct (Z.leb_spec (decimal number) 0); [reflexivity | lia].
  - unfold run, NN.validate. rewrite compact_clean, Hclean. cbn [fst snd].
    rewrite Hd. reflexivity.
Qed.

(** X3. What an accepted input looks like: the value returned is the
    cleaned input, a string of exactly eleven digits of positive value,
    flagged as an individual and not as a company; its checksum lies
    between 1 and 97 and is the one its base number asks for, or the one
    the 2-prefixed base number asks for. *)
Theorem accepted_number_shape
        (cleanUnicode : string -> string -> string * option Error)
        (input c : string) (isIndividual isCompany : bool) (clk : Clock) :
  run (NN.validate cleanUnicode input) clk = Return (Valid c isIndividual isCompany) ->
  let n := decimal (substring 0 9 c) in
  let k := decimal (substring 9 2 c) in
  NN.clean cleanUnicode input = (c, None)
  /\ NN.compact cleanUnicode input = Return c
  /\ compactForm c
  /\ 0 < decimal c
  /\ isIndividual = true /\ isCompany = false
  /\ 1 <= k <= 97
  /\ (k = checksumFor n \/ k = checksumFor (twoPrefixed n))
  /\ run (NN.validStructure c) clk = true.
Proof.
  intros Hv. cbv zeta.
  pose proof (compact_clean cleanUnicode input) as Hcompact.
  destruct (NN.clean cleanUnicode input) as [number err] eqn:Hclean.
  destruct err as [e |].
  { unfold run, NN.validate in Hv. rewrite compact_clean, Hclean in Hv. discriminate Hv. }
  rewrite (validate_stage_A cleanUnicode input number clk Hclean) in Hv.
  destruct (strings.isdigits number) eqn:Hd; [| discriminate Hv].
  destruct (Z.ltb_spec 0 (decimal number)) as [Hpos | Hle]; [| discriminate Hv].
  destruct (Nat.eqb_spec (String.length number) 11) as [Hlen | Hlen]; [| discriminate Hv].
  pose proof (isdigits_compactForm number Hd Hlen) as Hc.
  unfold run in Hv.
  rewrite (validate_pipeline cleanUnicode input number clk Hclean Hc Hpos) in Hv.
  destruct (NN.validStructure number clk) as [[|] clk1] eqn:Hs; cbn [negb] in Hv;
    [| discriminate Hv].
  pose proof (validChecksum_search number clk1 Hc) as Hsearch.
  pose proof (compact_bases_forms number Hc clk1) as Hforms.
  destruct (NN.validChecksum number clk1) as [[|] clk2]; cbn [negb fst] in Hv, Hsearch;
    [| discriminate Hv].
  injection Hv as Hnum Hi Hco. subst c isIndividual isCompany.
  destruct (proj1 Hsearch eq_refl) as (b & Hin & Heq).
  unfold checksumEquation in Heq.
  pose proof (Z.mod_pos_bound b 97) as Hmod.
  rewrite Hcompact. cbn [fst snd].
  repeat split; try assumption; try reflexivity; try lia.
  - apply Hc.
  - unfold checksumFor. destruct (Hforms _ Hin) as [E | E]; injection E as ->;
      [left | right]; lia.
  - unfold run. rewrite Hs. reflexivity.
Qed.

Lemma accepted_number_shape_witness :
  compactForm "85073003328"
  /\ decimal (substring 9 2 "85073003328")
     = checksumFor (decimal (substring 0 9 "85073003328")).
Proof.
  destruct (accepted_number_shape strings.cleanUnicode_spec "85.07.30-033 28"
              "85073003328" true false (frozen instant_2026_11_01))
    as (_ & _ & Hc & _ & _ & _ & _ & [Hk | Hk] & _).
  - reflexivity.
  - split; [exact Hc | exact Hk].
  - split; [exact Hc | reflexivity].
Defined.

(** X5. Each error names its stage.  For an input that cleans without
    error: [InvalidLength] is reported exactly when the cleaned form is a
    non-empty string of digits of positive value with a length other than
    11; [InvalidFormat] exactly when it is not such a string of digits, or
    its value is not positive, or it has eleven digits and fails the
    structure check; [InvalidChecksum] exactly when it has eleven digits,
    a positive value, a valid structure, and no basis satisfies the
    checksum equation. *)
Theorem error_names_its_stage
        (cleanUnicode : string -> string -> string * option Error)
        (input number : string) (clk : Clock) :
  NN.clean cleanUnicode input = (number, None) ->
  let result := run (NN.validate cleanUnicode input) clk in
  let afterStructure := snd (NN.validStructure number clk) in
  (result = Return (Invalid InvalidLength) <->
     strings.isdigits number = true /\ 0 < decimal number
     /\ String.length number <> 11%nat)
  /\ (result = Return (Invalid InvalidFormat) <->
        strings.isdigits number = false
        \/ decimal number <= 0
        \/ (compactForm number /\ 0 < decimal number
            /\ run (NN.validStructure number) clk = false))
  /\ (result = Return (Invalid InvalidChecksum) <->
        compactForm number /\ 0 < decimal number
        /\ run (NN.validStructure number) clk = true
        /\ ~ exists b,
               In (Some b) (run (NN.getChecksumBases number) afterStructure)
               /\ checksumEquation b (decimal (substring 9 2 number))).
Proof.
  intros Hclean result afterStructure.
  assert (Hr : result = run (NN.validate cleanUnicode input) clk) by reflexivity.
  clearbody result.
  rewrite (validate_stage_A cleanUnicode input number clk Hclean) in Hr.
  destruct (strings.isdigits number) eqn:Hd.
  2:{ subst result. split; [| split]; split; try discriminate.
      - intros (? & _). discriminate.
      - intros _. left. reflexivity.
      - reflexivity.
      - intros (Hc & _). rewrite (compact_isdigits number Hc) in Hd. discriminate Hd. }
  destruct (Z.ltb_spec 0 (decimal number)) as [Hpos | Hle].
  2:{ subst result. split; [| split]; split; try discriminate.
      - intros (_ & ? & _). lia.
      - intros _. right. left. exact Hle.
      - reflexivity.
      - intros (_ & ? & _). lia. }
  destruct (Nat.eqb_spec (String.length number) 11) as [Hlen | Hlen].
  2:{ subst result. split; [| split]; split; try discriminate.
      - intros _. repeat split; assumption.
      - reflexivity.
      - intros [? | [? | ((? & _) & _)]]; [discriminate | lia | contradiction].
      - intros ((? & _) & _). contradiction. }
  pose proof (isdigits_compactForm number Hd Hlen) as Hc.
  unfold run in Hr.
  rewrite (validate_pipeline cleanUnicode input number clk Hclean Hc Hpos) in Hr.
  pose proof (validChecksum_search number afterStructure Hc) as Hsearch.
  subst afterStructure. unfold run.
  destruct (NN.validStructure number clk) as [structure clk1]. cbn [fst snd] in *.
  destruct structure; cbn [negb fst] in Hr.
  - destruct (NN.validChecksum number clk1) as [found clk2]. cbn [fst] in *.
    destruct found; cbn [negb fst] in Hr; subst result.
    + split; [| split]; split; try discriminate.
      * intros (_ & _ & Hl). contradiction.
      * intros [Hf | [Hn | (_ & _ & Hf)]]; [discriminate Hf | lia | discriminate Hf].
      * intros (_ & _ & _ & Hno). exfalso. apply Hno, Hsearch. reflexivity.
    + split; [| split]; split; try discriminate.
      * intros (_ & _ & Hl). contradiction.
      * intros [Hf | [Hn | (_ & _ & Hf)]]; [discriminate Hf | lia | discriminate Hf].
      * intros _. split; [exact Hc |]. split; [exact Hpos |]. split; [reflexivity |].
        intros Hex. apply Hsearch in Hex. discriminate Hex.
      * reflexivity.
  - subst result. split; [| split]; split; try discriminate.
    + intros (_ & _ & Hl). contradiction.
    + intros _. right. right. split; [exact Hc |]. split; [exact Hpos | reflexivity].
    + reflexivity.
    + intros (_ & _ & Hf & _). discriminate Hf.
Qed.

Lemma error_names_its_stage_witness :
  run (NN.validate strings.cleanUnicode_spec "85.07.30-033") (frozen instant_2026_11_01)
  = Return (Invalid InvalidLength).
Proof.
  destruct (error_names_its_stage strings.cleanUnicode_spec "85.07.30-033"
              "850730033" (frozen instant_2026_11_01)) as (Hlen & _ & _).
  - reflexivity.
  - apply Hlen. split; [reflexivity |]. split; [reflexivity | discriminate].
Defined.

(** X8. Whatever the clock, [getChecksumBases] returns at most two bases
    for a compact form, without repetition and the base number first: the
    list is empty, or holds the base number, or its 2-prefixed form, or
    both in this order; it depends on the clock by the first two readings
    only. *)
Theorem at_most_two_bases (number : string) (clk : Clock) :
  compactForm number ->
  let bases := run (NN.getChecksumBases number) clk in
  let n := decimal (substring 0 9 number) in
  (bases = [] \/ bases = [Some n] \/ bases = [Some (twoPrefixed n)]
   \/ bases = [Some n; Some (twoPrefixed n)])
  /\ (length bases <= 2)%nat
  /\ List.NoDup bases
  /\ forall clk' : Clock,
       clk' 0%nat = clk 0%nat -> clk' 1%nat = clk 1%nat ->
       run (NN.getChecksumBases number) clk' = bases.
Proof.
  intros Hc bases n.
  assert (Hb : bases = basesOn number (clk 0%nat) (clk 1%nat))
    by (apply compact_bases_explicit; exact Hc).
  destruct (compact_bounds number Hc) as (Hn & _ & _). fold n in Hn.
  assert (Hne : Some n <> Some (twoPrefixed n)).
  { unfold twoPrefixed.
    assert (0 < 10 ^ decimalWidth n)
      by (apply Z.pow_pos_nonneg; [lia | unfold decimalWidth; lia]).
    intros E. injection E. lia. }
  assert (Hshape : exists b19 b20, bases = basesWhen b19 b20 n).
  { rewrite Hb. unfold basesOn. fold n.
    destruct (String.eqb _ "000001"); [exists true, false; reflexivity |].
    destruct (_ && _)%bool; eexists; eexists; reflexivity. }
  destruct Hshape as (b19 & b20 & Hshape).
  split; [| split; [| split]].
  - rewrite Hshape. destruct b19, b20; cbn; auto.
  - rewrite Hshape. destruct b19, b20; cbn; lia.
  - rewrite Hshape. destruct b19, b20; cbn;
      repeat constructor; cbn; try tauto.
    intros [E | []]. apply Hne. symmetry. exact E.
  - intros clk' H0 H1. rewrite Hb. unfold run.
    rewrite (compact_bases_explicit number clk' Hc), H0, H1. reflexivity.
Qed.

Lemma at_most_two_bases_witness :
  (length (run (NN.getChecksumBases "85073003328") (frozen instant_2026_11_01)) <= 2)%nat.
Proof.
  destruct (at_most_two_bases "85073003328" (frozen instant_2026_11_01)) as (_ & H & _).
  - split; reflexivity.
  - exact H.
Defined.

Lemma cleanUnicode_spec_digits s :
  JS.all_digits s = true -> strings.cleanUnicode_spec s " -." = (s, None).
Proof.
  intros Hs. unfold strings.cleanUnicode_spec.
  change (list_ascii_of_string " -.") with [" "; "-"; "."]%char.
  unfold JS.all_digits in Hs.
  assert (Hkeep : List.filter
                    (fun c => negb (existsb (Ascii.eqb c) [" "; "-"; "."]%char))
                    (list_ascii_of_string s) = list_ascii_of_string s).
  { apply forallb_filter_id. rewrite forallb_forall in Hs |- *.
    intros a Ha. specialize (Hs a Ha). cbn [existsb].
    destruct (Ascii.eqb_spec a " ") as [-> | _]; [discriminate Hs |].
    destruct (Ascii.eqb_spec a "-") as [-> | _]; [discriminate Hs |].
    destruct (Ascii.eqb_spec a ".") as [-> | _]; [discriminate Hs |].
    reflexivity. }
  rewrite Hkeep, string_of_list_ascii_of_string. reflexivity.
Qed.

(** What a success of [validate] tells about the input. *)
Lemma validate_Valid_inv
      (cleanUnicode : string -> string -> string * option Error)
      (input c : string) (isIndividual isCompany : bool) (clk : Clock) :
  run (NN.validate cleanUnicode input) clk = Return (Valid c isIndividual isCompany) ->
  NN.clean cleanUnicode input = (c, None) /\ compactForm c /\ 0 < decimal c
  /\ isIndividual = true /\ isCompany = false.
Proof.
  intros Hv.
  destruct (NN.clean cleanUnicode input) as [number err] eqn:Hclean.
  destruct err as [e |].
  { unfold run, NN.validate in Hv. rewrite compact_clean, Hclean in Hv. discriminate Hv. }
  rewrite (validate_stage_A cleanUnicode input number clk Hclean) in Hv.
  destruct (strings.isdigits number) eqn:Hd; [| discriminate Hv].
  destruct (Z.ltb_spec 0 (decimal number)) as [Hpos | Hle]; [| discriminate Hv].
  destruct (Nat.eqb_spec (String.length number) 11) as [Hlen | Hlen]; [| discriminate Hv].
  pose proof (isdigits_compactForm number Hd Hlen) as Hc.
  unfold run in Hv.
  rewrite (validate_pipeline cleanUnicode input number clk Hclean Hc Hpos) in Hv.
  destruct (NN.validStructure number clk) as [[|] clk1]; cbn [negb] in Hv;
    [| discriminate Hv].
  destruct (NN.validChecksum number clk1) as [[|] clk2]; cbn [negb fst] in Hv;
    [| discriminate Hv].
  injection Hv as Hnum Hi Hco. subst c isIndividual isCompany.
  repeat split; try assumption; try reflexivity; apply Hc.
Qed.

(** X4. The compact form that [validate] returns validates to itself:
    when the cleaning helper leaves a string of digits unchanged, an
    accepted input yields a value on which [validate] succeeds again with
    the same result, and which [compact] and [format] return as it is. *)
Theorem accepted_value_validates_again
        (cleanUnicode : string -> string -> string * option Error)
        (input c : string) (isIndividual isCompany : bool) (clk : Clock) :
  (forall s, JS.all_digits s = true -> NN.clean cleanUnicode s = (s, None)) ->
  run (NN.validate cleanUnicode input) clk = Return (Valid c isIndividual isCompany) ->
  run (NN.validate cleanUnicode c) clk = Return (Valid c isIndividual isCompany)
  /\ NN.compact cleanUnicode c = Return c
  /\ NN.format cleanUnicode c = c.
Proof.
  intros Hdigits Hv.
  assert (Hin : NN.clean cleanUnicode input = (c, None) /\ JS.all_digits c = true).
  { destruct (validate_Valid_inv cleanUnicode input c isIndividual isCompany clk Hv)
      as (Hclean & [_ Hall] & _).
    split; assumption. }
  destruct Hin as [Hclean Hall]. pose proof (Hdigits c Hall) as Hc.
  split; [| split].
  - rewrite <- Hv. unfold run, NN.validate. rewrite !compact_clean, Hclean, Hc. reflexivity.
  - rewrite compact_clean, Hc. reflexivity.
  - unfold NN.format. rewrite Hc. reflexivity.
Qed.

Lemma accepted_value_validates_again_witness :
  run (NN.validate strings.cleanUnicode_spec "85073003328") (frozen instant_2026_11_01)
  = Return (Valid "85073003328" true false)
  /\ NN.compact strings.cleanUnicode_spec "85073003328" = Return "85073003328"
  /\ NN.format strings.cleanUnicode_spec "85073003328" = "85073003328".
Proof.
  apply (accepted_value_validates_again strings.cleanUnicode_spec "85.07.30-033 28"
           "85073003328" true false (frozen instant_2026_11_01)).
  - intros s Hs. apply cleanUnicode_spec_digits. exact Hs.
  - reflexivity.
Defined.

Lemma validChecksum_fst number clk :
  compactForm number ->
  fst (NN.validChecksum number clk)
  = existsb (fun csb => JS.rem_plus_eq csb 97 (Some (decimal (substring 9 2 number))) 97)
            (basesOn number (clk 0%nat) (clk 1%nat)).
Proof.
  intros Hc. rewrite <- (compact_bases_explicit number clk Hc).
  unfold NN.validChecksum, bind.
  rewrite (compact_getBaseNumberAndChecksum number Hc).
  destruct (NN.getChecksumBases number clk) as [bases clk2]. reflexivity.
Qed.

(** When the structure check of a dated number fails, no basis is left. *)
Lemma no_past_year_no_basis number now :
  compactForm number ->
  (NN.isCompletelyUnknownDob (substring 0 6 number)
   || (String.eqb (substring 2 2 number) "00" && String.eqb (substring 4 2 number) "00"))%bool
  = false ->
  negb (length (pastYears (JS.TimeClip (now + JS.msPerDay)) (substring 0 2 number)
                          (substring 2 2 number) (substring 4 2 number)) =? 0)%nat = false ->
  basesOn number now now = [].
Proof.
  intros Hc Hflag Hnone. apply orb_false_iff in Hflag. destruct Hflag as [Hs Hy].
  unfold NN.isCompletelyUnknownDob in Hs. unfold basesOn. rewrite Hs, Hy.
  destruct (compact_century_year number Hc) as (E19 & E20 & _). cbv zeta in E19, E20.
  unfold pastYears in Hnone. rewrite E19, E20 in Hnone.
  destruct (candidate _ (1900 + _) _ _); [discriminate Hnone |].
  destruct (candidate _ (2000 + _) _ _); [discriminate Hnone |].
  reflexivity.
Qed.

(** [validate] at a fixed instant, on an input that cleans to a positive
    compact form. *)
Lemma validate_frozen_iff
      (cleanUnicode : string -> string -> string * option Error)
      (input number : string) (now : Z) :
  NN.clean cleanUnicode input = (number, None) ->
  compactForm number ->
  0 < decimal number ->
  run (NN.validate cleanUnicode input) (frozen now) = Return (Valid number true false)
  <-> existsb (fun csb => JS.rem_plus_eq csb 97 (Some (decimal (substring 9 2 number))) 97)
              (basesOn number now now) = true.
Proof.
  intros Hclean Hc Hpos. unfold run.
  rewrite (validate_pipeline cleanUnicode input number (frozen now) Hclean Hc Hpos).
  rewrite (compact_validStructure number Hc (frozen now)).
  change (frozen now 0%nat) with now.
  destruct (_ || _)%bool eqn:Hflag.
  - cbn [negb]. pose proof (validChecksum_fst number (frozen now) Hc) as Hf.
    change (frozen now 0%nat) with now in Hf. change (frozen now 1%nat) with now in Hf.
    destruct (NN.validChecksum number (frozen now)) as [found clk2]. cbn [fst] in *.
    rewrite <- Hf. destruct found; cbn; split; intros H; first [reflexivity | discriminate H].
  - destruct (negb (length _ =? 0)%nat) eqn:Hsome; cbn [negb].
    + pose proof (validChecksum_fst number (later (frozen now)) Hc) as Hf.
      change (later (frozen now) 0%nat) with now in Hf.
      change (later (frozen now) 1%nat) with now in Hf.
      destruct (NN.validChecksum number (later (frozen now))) as [found clk2].
      cbn [fst] in *. rewrite <- Hf.
      destruct found; cbn; split; intros H; first [reflexivity | discriminate H].
    + rewrite (no_past_year_no_basis number now Hc Hflag Hsome). cbn.
      split; intros H; discriminate H.
Qed.

Lemma Date_le_later t now now' :
  dayAheadInRange now -> dayAheadInRange now' -> now <= now' ->
  JS.Date_le (Some t) (JS.TimeClip (now + JS.msPerDay)) = true ->
  JS.Date_le (Some t) (JS.TimeClip (now' + JS.msPerDay)) = true.
Proof.
  unfold dayAheadInRange, JS.TimeClip. intros Hr Hr' Hle.
  destruct (Z.leb_spec (Z.abs (now + JS.msPerDay)) 8640000000000000); [| lia].
  destruct (Z.leb_spec (Z.abs (now' + JS.msPerDay)) 8640000000000000); [| lia].
  cbn [JS.Date_le JS.le]. rewrite !Z.leb_le. lia.
Qed.

(** X6. Validity is kept as time passes: an input accepted when the clock
    shows an instant [now] is accepted, with the same result, when it
    shows any later instant. *)
Theorem valid_stays_valid
        (cleanUnicode : string -> string -> string * option Error)
        (input c : string) (isIndividual isCompany : bool) (now now' : Z) :
  dayAheadInRange now ->
  dayAheadInRange now' ->
  now <= now' ->
  run (NN.validate cleanUnicode input) (frozen now)
  = Return (Valid c isIndividual isCompany) ->
  run (NN.validate cleanUnicode input) (frozen now')
  = Return (Valid c isIndividual isCompany).
Proof.
  intros Hr Hr' Hle Hv.
  destruct (validate_Valid_inv cleanUnicode input c isIndividual isCompany (frozen now) Hv)
    as (Hclean & Hc & Hpos & -> & ->).
  apply (validate_frozen_iff cleanUnicode input c now' Hclean Hc Hpos).
  apply (validate_frozen_iff cleanUnicode input c now Hclean Hc Hpos) in Hv.
  destruct (compact_bounds c Hc) as (Hn & _ & _). cbv zeta in Hn.
  revert Hv. unfold basesOn.
  destruct (String.eqb _ "000001"); [tauto |].
  destruct (_ && _)%bool; rewrite !existsb_basesWhen by lia.
  - unfold started.
    intros [[H ?] | [H ?]]; [left | right];
      (split; [apply (Date_le_later _ now now'); assumption | assumption]).
  - unfold candidate.
    intros [[H ?] | [H ?]]; [left | right]; (split; [| assumption]);
      apply andb_true_iff in H; destruct H as [Hcal H]; apply andb_true_iff;
      (split; [exact Hcal | apply (Date_le_later _ now now'); assumption]).
Qed.

Lemma valid_stays_valid_witness :
  run (NN.validate strings.cleanUnicode_spec "85.07.30-033 28") (frozen (instant_2026_11_01 + 1))
  = Return (Valid "85073003328" true false).
Proof.
  apply (valid_stays_valid strings.cleanUnicode_spec "85.07.30-033 28" "85073003328"
           true false instant_2026_11_01 (instant_2026_11_01 + 1)).
  - unfold dayAheadInRange. vm_compute. discriminate.
  - unfold dayAheadInRange. vm_compute. discriminate.
  - vm_compute. discriminate.
  - reflexivity.
Defined.

Lemma twoDigits_spec c :
  0 <= c <= 99 ->
  String.length (twoDigits c) = 2%nat
  /\ JS.all_digits (twoDigits c) = true
  /\ decimal (twoDigits c) = c.
Proof.
  intros Hc. unfold twoDigits.
  assert (H10 : 0 <= c / 10 <= 9).
  { assert (c / 10 < 10) by (apply Z.div_lt_upper_bound; lia).
    assert (0 <= c / 10) by (apply Z.div_pos; lia). lia. }
  pose proof (Z.mod_pos_bound c 10) as Hmod.
  destruct (digit_char_digit (c / 10) H10) as [Ha Hav].
  destruct (digit_char_digit (c mod 10)) as [Hb Hbv]; [lia |].
  split; [reflexivity |]. split.
  - cbv beta iota zeta delta [JS.all_digits list_ascii_of_string forallb].
    rewrite Ha, Hb. reflexivity.
  - cbv beta iota zeta delta [decimal JS.parse_digits]. rewrite Ha, Hb, Hav, Hbv.
    pose proof (Z.div_mod c 10). lia.
Qed.

(** The parts of a number made of nine digits and two more. *)
Lemma prefix_parts prefix cc :
  String.length prefix = 9%nat ->
  String.length cc = 2%nat ->
  substring 0 9 (prefix +:+ cc) = prefix
  /\ substring 9 2 (prefix +:+ cc) = cc
  /\ substring 0 6 (prefix +:+ cc) = substring 0 6 prefix
  /\ substring 0 2 (prefix +:+ cc) = substring 0 2 prefix
  /\ substring 2 2 (prefix +:+ cc) = substring 2 2 prefix
  /\ substring 4 2 (prefix +:+ cc) = substring 4 2 prefix
  /\ (JS.all_digits prefix = true -> JS.all_digits cc = true -> compactForm (prefix +:+ cc)).
Proof.
  intros Hp Hcc.
  do 9 (destruct prefix as [| ? prefix]; [discriminate Hp |]).
  destruct prefix; [| discriminate Hp].
  do 2 (destruct cc as [| ? cc]; [discriminate Hcc |]).
  destruct cc; [| discriminate Hcc].
  repeat split; try reflexivity.
  revert H H0.
  cbv beta iota zeta delta [JS.all_digits list_ascii_of_string forallb String.append].
  intros H H0.
  repeat (apply andb_true_iff in H; destruct H as [? H]).
  repeat (apply andb_true_iff in H0; destruct H0 as [? H0]).
  use_digits. reflexivity.
Qed.

Lemma utcMidnight_before_2000 y :
  1900 <= y <= 2000 -> JS.utcMidnight y 1 1 <= JS.utcMidnight 2000 1 1.
Proof.
  intros Hy. destruct (Z.eq_dec y 2000) as [-> | Hne]; [lia |].
  unfold JS.utcMidnight, JS.DayFromYear, JS.msPerDay.
  change (Z.to_nat (1 - 1)) with 0%nat. cbn [JS.daysBeforeMonth].
  change ((2000 - 1969) / 4) with 7. change ((2000 - 1901) / 100) with 0.
  change ((2000 - 1601) / 400) with 0.
  assert ((y - 1969) / 4 < 8) by (apply Z.div_lt_upper_bound; lia).
  assert (-1 <= (y - 1901) / 100) by (apply Z.div_le_lower_bound; lia).
  assert ((y - 1601) / 400 < 1) by (apply Z.div_lt_upper_bound; lia).
  lia.
Qed.

(** A valid structure leaves a basis, once the year 2000 has started. *)
Lemma basesOn_nonempty number now :
  compactForm number ->
  dayAheadInRange now ->
  JS.utcMidnight 2000 1 1 <= now + JS.msPerDay ->
  fst (NN.validStructure number (frozen now)) = true ->
  exists b, In (Some b) (basesOn number now now) /\ 0 <= b.
Proof.
  intros Hc Hr H2000 Hs.
  destruct (compact_bounds number Hc) as (Hn & _ & _). cbv zeta in Hn.
  destruct (compact_century_year number Hc) as (E19 & E20 & Hyy). cbv zeta in E19, E20, Hyy.
  pose proof (twoPrefixed_nonneg _ (proj1 Hn)) as H2.
  rewrite (compact_validStructure number Hc (frozen now)) in Hs.
  change (frozen now 0%nat) with now in Hs.
  unfold NN.isCompletelyUnknownDob in Hs. unfold basesOn.
  destruct (String.eqb _ "000001").
  { eexists. split; [left; reflexivity | lia]. }
  destruct (_ && _)%bool; cbn [orb fst] in Hs.
  - assert (Hst : started (JS.TimeClip (now + JS.msPerDay))
                          (1900 + decimal (substring 0 2 number)) = true).
    { apply started_in_range; [exact Hr |].
      pose proof (utcMidnight_before_2000 (1900 + decimal (substring 0 2 number))). lia. }
    rewrite Hst. eexists. split; [left; reflexivity | lia].
  - unfold pastYears in Hs. rewrite E19, E20 in Hs. unfold basesWhen.
    destruct (candidate _ (1900 + _) _ _).
    + eexists. split; [left; reflexivity | lia].
    + destruct (candidate _ (2000 + _) _ _); [| discriminate Hs].
      eexists. split; [left; reflexivity | lia].
Qed.

Lemma validate_Valid_structure
      (cleanUnicode : string -> string -> string * option Error)
      (input number : string) (clk : Clock) :
  NN.clean cleanUnicode input = (number, None) ->
  compactForm number ->
  0 < decimal number ->
  run (NN.validate cleanUnicode input) clk = Return (Valid number true false) ->
  fst (NN.validStructure number clk) = true.
Proof.
  intros Hclean Hc Hpos. unfold run.
  rewrite (validate_pipeline cleanUnicode input number clk Hclean Hc Hpos).
  destruct (NN.validStructure number clk) as [[|] clk1]; cbn; [reflexivity | discriminate].
Qed.

(** X7. Nine digits can be completed into an accepted number exactly when
    they pass the structure check: for a clock fixed at an instant of the
    year 2000 or later and a cleaning helper that leaves digits unchanged,
    there are two digits [cc] that make [validate] accept the eleven
    digits if and only if [validStructure] holds of the nine digits
    (followed by any two). *)
Theorem structure_valid_iff_checksum_exists
        (cleanUnicode : string -> string -> string * option Error)
        (prefix : string) (now : Z) :
  (forall s, JS.all_digits s = true -> NN.clean cleanUnicode s = (s, None)) ->
  String.length prefix = 9%nat ->
  JS.all_digits prefix = true ->
  dayAheadInRange now ->
  JS.utcMidnight 2000 1 1 <= now + JS.msPerDay ->
  run (NN.validStructure (prefix +:+ "00")) (frozen now) = true
  <-> exists cc,
        String.length cc = 2%nat /\ JS.all_digits cc = true
        /\ run (NN.validate cleanUnicode (prefix +:+ cc)) (frozen now)
           = Return (Valid (prefix +:+ cc) true false).
Proof.
  intros Hdigits Hlen Hall Hr H2000.
  assert (Hsame : forall cc, String.length cc = 2%nat -> JS.all_digits cc = true ->
                    compactForm (prefix +:+ cc)
                    /\ NN.validStructure (prefix +:+ cc) (frozen now)
                       = NN.validStructure (prefix +:+ "00") (frozen now)
                    /\ basesOn (prefix +:+ cc) now now = basesOn (prefix +:+ "00") now now
                    /\ decimal (substring 9 2 (prefix +:+ cc)) = decimal cc).
  { intros cc Hcc Hd.
    destruct (prefix_parts prefix cc Hlen Hcc) as (P9 & P2 & P6 & Pyy & Pmm & Pdd & Pc).
    destruct (prefix_parts prefix "00" Hlen eq_refl) as (Q9 & _ & Q6 & Qyy & Qmm & Qdd & Qc).
    split; [apply Pc; assumption |]. split; [| split].
    - unfold NN.validStructure.
      rewrite (compact_getFirstSix _ (Pc Hall Hd)), (compact_getFirstSix _ (Qc Hall eq_refl)).
      cbv zeta. rewrite P6, Q6. reflexivity.
    - unfold basesOn. rewrite P9, P6, Pyy, Pmm, Pdd, Q9, Q6, Qyy, Qmm, Qdd. reflexivity.
    - rewrite P2. reflexivity. }
  split.
  - intros Hs.
    destruct (Hsame "00" eq_refl eq_refl) as (Hc0 & _ & _ & _).
    destruct (basesOn_nonempty (prefix +:+ "00") now Hc0 Hr H2000 Hs) as (b & Hin & Hb).
    pose proof (Z.mod_pos_bound b 97) as Hmod.
    destruct (twoDigits_spec (checksumFor b)) as (Hl & Hd & Hval);
      [unfold checksumFor; lia |].
    exists (twoDigits (checksumFor b)). split; [exact Hl |]. split; [exact Hd |].
    destruct (Hsame _ Hl Hd) as (Hc & _ & Hbases & Hk).
    apply validate_frozen_iff.
    + apply Hdigits. apply Hc.
    + exact Hc.
    + destruct (compact_bounds _ Hc) as (Hn & _ & Hdec). cbv zeta in Hn, Hdec.
      rewrite Hdec, Hk, Hval. unfold checksumFor in *. lia.
    + rewrite Hbases, Hk, Hval. apply existsb_exists. exists (Some b).
      split; [exact Hin |]. cbn [JS.rem_plus_eq]. apply Z.eqb_eq.
      rewrite Z.rem_mod_nonneg by lia. unfold checksumFor. lia.
  - intros (cc & Hl & Hd & Hv).
    destruct (Hsame cc Hl Hd) as (Hc & Hstruct & _ & _).
    destruct (validate_Valid_inv cleanUnicode _ _ _ _ _ Hv) as (Hclean & _ & Hpos & _).
    pose proof (validate_Valid_structure cleanUnicode _ _ _ Hclean Hc Hpos Hv) as Hs.
    unfold run. rewrite <- Hstruct. exact Hs.
Qed.

Lemma structure_valid_iff_checksum_exists_witness :
  exists cc,
    String.length cc = 2%nat /\ JS.all_digits cc = true
    /\ run (NN.validate strings.cleanUnicode_spec ("850730033" +:+ cc)) (frozen instant_2026_11_01)
       = Return (Valid ("850730033" +:+ cc) true false).
Proof.
  apply (structure_valid_iff_checksum_exists strings.cleanUnicode_spec "850730033"
           instant_2026_11_01).
  - intros s Hs. apply cleanUnicode_spec_digits. exact Hs.
  - reflexivity.
  - reflexivity.
  - unfold dayAheadInRange. vm_compute. discriminate.
  - vm_compute. discriminate.
  - reflexivity.
Defined.

(** * Further properties of the registry *)

Ltac each_entry H :=
  repeat (destruct H as [H | H];
          [injection H as <- <-; split; [cbn; tauto | discriminate] |]);
  destruct H.

Lemma personValidators_entries lib code vset :
  Registry.personValidators lib !! code = Some vset ->
  In code personCodes /\ vset <> [].
Proof.
  intros H. unfold Registry.personValidators in H.
  apply elem_of_list_to_map_2, list_elem_of_In in H.
  cbn [In] in H. each_entry H.
Qed.

Lemma entityValidators_entries lib code vset :
  Registry.entityValidators lib !! code = Some vset ->
  In code entityCodes /\ vset <> [].
Proof.
  intros H. unfold Registry.entityValidators in H.
  apply elem_of_list_to_map_2, list_elem_of_In in H.
  cbn [In] in H. each_entry H.
Qed.

Lemma personValidators_registered lib code :
  In code personCodes -> exists vset, Registry.personValidators lib !! code = Some vset.
Proof.
  unfold personCodes. cbn [In]. intros H.
  repeat (destruct H as [<- | H]; [eexists; vm_compute; reflexivity |]).
  destruct H.
Qed.

Lemma entityValidators_registered lib code :
  In code entityCodes -> exists vset, Registry.entityValidators lib !! code = Some vset.
Proof.
  unfold entityCodes. cbn [In]. intros H.
  repeat (destruct H as [<- | H]; [eexists; vm_compute; reflexivity |]).
  destruct H.
Qed.

(** X9. Which countries are checked.  [validatePerson] answers
    [checked: true] exactly for the 37 country codes of its table, and
    [validateEntity] exactly for the 41 codes of its own: no code is
    registered with an empty list.  In both answers [isValid] is present
    exactly when [checked] is true. *)
Theorem checked_iff_registered
        (toLocaleUpperCase : string -> string)
        (lib : string -> string -> Registry.Validator)
        (country value : string) :
  let code := toLocaleUpperCase country in
  let person := Registry.validatePerson toLocaleUpperCase lib country value in
  let entity := Registry.validateEntity toLocaleUpperCase lib country value in
  (Registry.checked person = true <-> In code personCodes)
  /\ (Registry.checked entity = true <-> In code entityCodes)
  /\ (Registry.isValid person = None <-> Registry.checked person = false)
  /\ (Registry.isValid entity = None <-> Registry.checked entity = false).
Proof.
  intros code person entity. subst person entity.
  unfold Registry.validatePerson, Registry.validateEntity, Registry.validateWith.
  fold code.
  split; [| split; [| split]].
  - destruct (Registry.personValidators lib !! code) as [vset |] eqn:Hl.
    + destruct (personValidators_entries lib code vset Hl) as [Hin Hne].
      destruct vset; [contradiction |]. cbn. tauto.
    + cbn. split; [discriminate |]. intros Hin.
      destruct (personValidators_registered lib code Hin) as [vset Hv]. congruence.
  - destruct (Registry.entityValidators lib !! code) as [vset |] eqn:Hl.
    + destruct (entityValidators_entries lib code vset Hl) as [Hin Hne].
      destruct vset; [contradiction |]. cbn. tauto.
    + cbn. split; [discriminate |]. intros Hin.
      destruct (entityValidators_registered lib code Hin) as [vset Hv]. congruence.
  - destruct (Registry.personValidators lib !! code) as [[| grp vset] |]; cbn;
      split; intros H; first [reflexivity | discriminate H].
  - destruct (Registry.entityValidators lib !! code) as [[| grp vset] |]; cbn;
      split; intros H; first [reflexivity | discriminate H].
Qed.

(** X10. Entity validation by country: the answer is [{ checked: false }]
    exactly when the upper-cased code has no entry in the table; [isValid]
    is true exactly when a validator of the registered list accepts the
    value, false exactly when the code is registered and every validator
    of the list rejects it; the answer is the same when the list is
    registered in another order. *)
Theorem validateEntity_verdict
        (toLocaleUpperCase : string -> string)
        (lib : string -> string -> Registry.Validator)
        (country value : string) :
  let code := toLocaleUpperCase country in
  let table := Registry.entityValidators lib in
  let entity := Registry.validateEntity toLocaleUpperCase lib country value in
  (entity = {| Registry.isValid := None; Registry.checked := false |}
   <-> table !! code = None)
  /\ (Registry.isValid entity = Some true <->
      exists vset grp,
        table !! code = Some vset /\ In grp vset
        /\ isValid (Registry.validate grp value) = true)
  /\ (Registry.isValid entity = Some false <->
      exists vset,
        table !! code = Some vset
        /\ forall grp, In grp vset -> isValid (Registry.validate grp value) = false)
  /\ (forall vset vset',
        table !! code = Some vset ->
        Permutation vset vset' ->
        Registry.validateWith toLocaleUpperCase (<[code := vset']> table) country value
        = entity).
Proof.
  intros code table entity. subst entity.
  unfold Registry.validateEntity, Registry.validateWith. fold code table.
  destruct (table !! code) as [vset |] eqn:Hl.
  - destruct (entityValidators_entries lib code vset Hl) as [_ Hne].
    destruct vset as [| g vset]; [contradiction |]. cbn [length Nat.eqb].
    cbv zeta. cbn [Registry.isValid].
    assert (Hex : existsb (Registry.accepts value) (g :: vset) = true <->
                  exists grp, In grp (g :: vset)
                              /\ isValid (Registry.validate grp value) = true).
    { rewrite existsb_exists. reflexivity. }
    split; [| split; [| split]].
    + split; discriminate.
    + split.
      * intros H. injection H as H. apply Hex in H. destruct H as (grp & Hin & Hacc).
        exists (g :: vset), grp. auto.
      * intros (vs & grp & Hvs & Hin & Hacc). injection Hvs as <-.
        f_equal. apply Hex. exists grp. auto.
    + split.
      * intros H. injection H as H. exists (g :: vset). split; [reflexivity |].
        intros grp Hin. destruct (isValid (Registry.validate grp value)) eqn:Hacc;
          [| reflexivity].
        assert (Ht : existsb (Registry.accepts value) (g :: vset) = true)
          by (apply Hex; exists grp; auto).
        cbn [existsb] in Ht. rewrite Ht in H. discriminate H.
      * intros (vs & Hvs & Hall). injection Hvs as <-. f_equal.
        clear Hex.
        destruct (existsb (Registry.accepts value) (g :: vset)) eqn:E; [| reflexivity].
        apply existsb_exists in E. destruct E as (grp & Hin & Hacc).
        unfold Registry.accepts in Hacc.
        rewrite (Hall grp Hin) in Hacc. discriminate Hacc.
    + intros vs vs' Hvs Hperm. injection Hvs as <-. rewrite lookup_insert_eq.
      destruct vs' as [| g' vs'].
      { apply Permutation_sym, Permutation_nil in Hperm. discriminate Hperm. }
      cbn [length Nat.eqb]. rewrite (existsb_Permutation _ _ _ Hperm). reflexivity.
  - cbn [Registry.isValid]. split; [| split; [| split]].
    + split; reflexivity.
    + split; [discriminate | intros (vs & grp & Hvs & _); discriminate Hvs].
    + split; [discriminate | intros (vs & Hvs & _); discriminate Hvs].
    + intros vs vs' Hvs. discriminate Hvs.
Qed.

Lemma validateEntity_verdict_witness :
  Registry.isValid
    (Registry.validateEntity Registry.upperASCII Registry.sampleLib "es" "not a number")
  = Some false.
Proof.
  destruct (validateEntity_verdict Registry.upperASCII Registry.sampleLib "es" "not a number")
    as (_ & _ & Hfalse & _).
  apply Hfalse.
  exists [Registry.sampleLib "ES" "cif"; Registry.sampleLib "ES" "nif"].
  split; [vm_compute; reflexivity |].
  intros grp [<- | [<- | []]]; reflexivity.
Defined.

(** * The checksum and the century *)

Lemma decimalWidth_range n :
  0 <= n <= 999999999 -> 1 <= decimalWidth n <= 9.
Proof.
  intros Hn. destruct (decimalWidth_bounds n) as [H0 Hpos].
  destruct (Z.eq_dec n 0) as [-> | Hnz]; [rewrite H0 by reflexivity; lia |].
  destruct Hpos as [Hlow Hup]; [lia |].
  assert (Hw : 0 <= decimalWidth n) by (unfold decimalWidth; lia).
  split.
  - destruct (Z.eq_dec (decimalWidth n) 0) as [E | E]; [| lia].
    rewrite E in Hup. change (10 ^ 0) with 1 in Hup. lia.
  - destruct (Z.le_gt_cases (decimalWidth n) 9) as [Hle | Hgt]; [exact Hle |].
    assert (10 ^ 9 <= 10 ^ (decimalWidth n - 1)) by (apply Z.pow_le_mono_r; lia).
    change (10 ^ 9) with 1000000000 in *. lia.
Qed.

(** X11. The checksum tells the century: for the base number of a compact
    form, the checksum equation never holds of the base number and of its
    2-prefixed form at once, so an accepted number matches one of the two
    bases only. *)
Theorem checksum_tells_century (number : string) :
  compactForm number ->
  let n := decimal (substring 0 9 number) in
  let k := decimal (substring 9 2 number) in
  ~ (checksumEquation n k /\ checksumEquation (twoPrefixed n) k).
Proof.
  intros Hc n k [H1 H2].
  destruct (compact_bounds number Hc) as (Hn & _ & _). fold n in Hn.
  pose proof (decimalWidth_range n Hn) as Hw.
  unfold checksumEquation, twoPrefixed in *.
  assert (Hsame : (2 * 10 ^ decimalWidth n + n) mod 97 = n mod 97) by lia.
  rewrite Z.add_mod in Hsame by lia.
  assert (Hpow : 1 <= (2 * 10 ^ decimalWidth n) mod 97 <= 96).
  { assert (Hcases : decimalWidth n = 1 \/ decimalWidth n = 2 \/ decimalWidth n = 3
                     \/ decimalWidth n = 4 \/ decimalWidth n = 5 \/ decimalWidth n = 6
                     \/ decimalWidth n = 7 \/ decimalWidth n = 8 \/ decimalWidth n = 9)
      by lia.
    repeat (destruct Hcases as [-> | Hcases]; [vm_compute; split; discriminate |]).
    rewrite Hcases. vm_compute. split; discriminate. }
  pose proof (Z.mod_pos_bound n 97 ltac:(lia)) as Hr.
  set (a := (2 * 10 ^ decimalWidth n) mod 97) in *.
  set (r := n mod 97) in *.
  destruct (Z.lt_ge_cases (a + r) 97) as [Hlt | Hge].
  - rewrite Z.mod_small in Hsame by lia. lia.
  - assert (E : (a + r) mod 97 = a + r - 97).
    { symmetry. apply (Z.mod_unique (a + r) 97 1); lia. }
    lia.
Qed.

Lemma checksum_tells_century_witness :
  ~ (checksumEquation (decimal (substring 0 9 "85073003328"))
                      (decimal (substring 9 2 "85073003328"))
     /\ checksumEquation (twoPrefixed (decimal (substring 0 9 "85073003328")))
                         (decimal (substring 9 2 "85073003328"))).
Proof. apply (checksum_tells_century "85073003328"). split; reflexivity. Defined.

(** X12. The VAT table against the entity table: every entry of [euVat]
    holds exactly one validator; except for ["AD"], which has no entity
    entry, and ["CY"], whose entity entry is the Swiss [CH.vat], this
    validator is one of those [validateEntity] consults for the same
    code, so a value it accepts is reported valid by [validateEntity]. *)
Theorem euVat_within_entities
        (toLocaleUpperCase : string -> string)
        (lib : string -> string -> Registry.Validator)
        (country value : string) (vset : list Registry.Validator) :
  let code := toLocaleUpperCase country in
  Registry.euVat lib !! code = Some vset ->
  exists grp,
    vset = [grp]
    /\ (code = "AD" -> Registry.entityValidators lib !! code = None)
    /\ (code = "CY" -> Registry.entityValidators lib !! code = Some [lib "CH" "vat"])
    /\ (code <> "AD" -> code <> "CY" ->
        isValid (Registry.validate grp value) = true ->
        Registry.validateEntity toLocaleUpperCase lib country value
        = {| Registry.isValid := Some true; Registry.checked := true |}).
Proof.
  intros code H. unfold Registry.validateEntity, Registry.validateWith. fold code.
  clearbody code. unfold Registry.euVat in H.
  apply elem_of_list_to_map_2, list_elem_of_In in H. cbn [In] in H.
  repeat (destruct H as [H | H];
          [injection H as <- <-; eexists; split; [reflexivity |];
           split; [intros E; first [discriminate E | vm_compute; reflexivity] |];
           split; [intros E; first [discriminate E | vm_compute; reflexivity] |];
           intros Had Hcy Hacc;
           first [contradiction Had; reflexivity | contradiction Hcy; reflexivity | idtac] |]).
  all: try (destruct H).
  all: match goal with
       | |- context [Registry.entityValidators ?l !! ?c] =>
           let v := eval vm_compute in (Registry.entityValidators l !! c) in
           change (Registry.entityValidators l !! c) with v
       end;
       cbn [length Nat.eqb existsb]; unfold Registry.accepts; rewrite Hacc;
       rewrite ?orb_true_r; reflexivity.
Qed.

Lemma euVat_within_entities_witness :
  Registry.validateEntity Registry.upperASCII Registry.sampleLib "be" "0123456789"
  = {| Registry.isValid := Some true; Registry.checked := true |}.
Proof.
  destruct (euVat_within_entities Registry.upperASCII Registry.sampleLib "be" "0123456789"
              [Registry.sampleLib "BE" "vat"]) as (grp & Hg & _ & _ & H).
  - vm_compute. reflexivity.
  - injection Hg as <-. apply H; [discriminate | discriminate | reflexivity].
Defined.
